(** * Cleaning pipeline of [app.py] ([limpiar_dataset_multiple])

    A shallow embedding of the multi-operation cleaning endpoint and of the
    dataset loader of [create_dataset], followed by the endpoints
    [create_dataset], [create_entrenamiento], [create_resultado] and
    [get_entrenamiento] with the calls they make to the storage and to the
    catalog.

    Conventions of the model.
    - A pandas [DataFrame] is a header (column names with their dtype) and a
      list of rows; the row index labels are not modelled ([to_csv] is called
      with [index=False]).  Frames come from [pd.read_csv], so column names
      are pairwise distinct and every row has one cell per column.
    - A numeric cell holds a rational, the value of the number in the frame;
      an example that writes a decimal such as 1/10 means the binary64 value
      nearest to it.  Quantiles, bounds and comparisons are computed in
      binary64 (primitive floats), as numpy does.
    - [pd.read_csv] and [pd.read_json] are parameters of the model, together
      with the lines of the file whose bytes [pd.read_csv] decodes; the
      UTF-8 and Latin-1 decoders are concrete.
    - The storage, the catalog and the file system are parameters; for the
      cleaning endpoint the calls are listed for a run in which the storage
      and the catalog answer.
    - Python exceptions are values; a loop that raises returns the exception
      together with its local variables at the point of the raise. *)

From Stdlib Require Import String Ascii List Bool Arith ZArith QArith Qround Lia.
From Stdlib Require Import DecimalString.
From Stdlib Require Import PrimFloat FloatOps Uint63.
Import ListNotations.

Local Open Scope string_scope.
Local Open Scope Z_scope.
Local Open Scope nat_scope.

(** ** Tabular frames *)

Inductive dtype : Type := object | float64 | int64.

Inductive cell : Type :=
| NaN
| Num (v : Q)
| Str (s : string).

Definition fila : Type := list cell.

Record DataFrame : Type := mkDataFrame {
  columns : list (string * dtype);
  rows : list fila
}.

(** [pd.DataFrame()] *)
Definition DataFrame_vacio : DataFrame := mkDataFrame [] [].

(** [len(df)] *)
Definition len (df : DataFrame) : nat := length (rows df).

(** [df.empty]: some axis has length 0. *)
Definition empty (df : DataFrame) : bool :=
  (length (rows df) =? 0) || (length (columns df) =? 0).

(** Every row has one cell per column. *)
Definition rectangular (df : DataFrame) : Prop :=
  Forall (fun r => length r = length (columns df)) (rows df).

Definition isnull (c : cell) : bool :=
  match c with NaN => true | _ => false end.

(** Equality of cells as [duplicated] sees it: missing values are equal to
    each other. *)
Definition cell_eqb (a b : cell) : bool :=
  match a, b with
  | NaN, NaN => true
  | Num x, Num y => Qeq_bool x y
  | Str s, Str t => String.eqb s t
  | _, _ => false
  end.

Fixpoint fila_eqb (r1 r2 : fila) : bool :=
  match r1, r2 with
  | [], [] => true
  | a :: r1', b :: r2' => cell_eqb a b && fila_eqb r1' r2'
  | _, _ => false
  end.

(** Boolean indexing [df[mask]]. *)
Fixpoint mask_rows (m : list bool) (rs : list fila) : list fila :=
  match m, rs with
  | b :: m', r :: rs' => if b then r :: mask_rows m' rs' else mask_rows m' rs'
  | _, _ => []
  end.

Definition getitem_mask (df : DataFrame) (m : list bool) : DataFrame :=
  mkDataFrame (columns df) (mask_rows m (rows df)).

(** ** Deduplicate: [df.duplicated()] and [df.drop_duplicates()] *)

(** A row is flagged when an earlier row ([vistos]) equals it. *)
Fixpoint duplicated_aux (vistos : list fila) (rs : list fila) : list bool :=
  match rs with
  | [] => []
  | r :: rs' => existsb (fila_eqb r) vistos :: duplicated_aux (r :: vistos) rs'
  end.

Definition duplicated (df : DataFrame) : list bool :=
  duplicated_aux [] (rows df).

Definition drop_duplicates (df : DataFrame) : DataFrame :=
  getitem_mask df (map negb (duplicated df)).

(** ** FillNulls: [df.isnull().sum().sum()] and the [fillna] loop *)

(** Values of the column at position [j]. *)
Definition valores_columna (j : nat) (rs : list fila) : list cell :=
  map (fun r => nth j r NaN) rs.

Definition contar_nulos (cs : list cell) : nat :=
  length (filter isnull cs).

(** [df.isnull().sum()]: one count per column. *)
Definition isnull_sum (df : DataFrame) : list nat :=
  map (fun j => contar_nulos (valores_columna j (rows df)))
      (seq 0 (length (columns df))).

(** [df.isnull().sum().sum()] *)
Definition isnull_sum_sum (df : DataFrame) : nat :=
  fold_right Nat.add 0 (isnull_sum df).

(** [Series.fillna(valor)] on one cell. *)
Definition fillna (valor : cell) (c : cell) : cell :=
  if isnull c then valor else c.

(** The replacement chosen by the loop body: ["N/A"] for [object] columns,
    [0] otherwise. *)
Definition relleno (d : dtype) : cell :=
  match d with
  | object => Str "N/A"
  | _ => Num 0
  end.

Fixpoint alterar (f : cell -> cell) (j : nat) (r : fila) : fila :=
  match r, j with
  | [], _ => []
  | c :: r', O => f c :: r'
  | c :: r', S j' => c :: alterar f j' r'
  end.

(** [df[col] = df[col].fillna(valor)] for the column at position [j]. *)
Definition fillna_columna (j : nat) (valor : cell) (rs : list fila) : list fila :=
  map (alterar (fillna valor) j) rs.

(** [for col in df.columns: ...] *)
Definition rellenar_nulos (df : DataFrame) : DataFrame :=
  mkDataFrame (columns df)
    (fold_left (fun rs jd => fillna_columna (fst jd) (relleno (snd jd)) rs)
       (combine (seq 0 (length (columns df))) (map snd (columns df)))
       (rows df)).

(** ** RemoveOutliers: [Series.quantile] and the column loop *)

Definition no_nulos (cs : list cell) : list Q :=
  flat_map (fun c => match c with Num v => [v] | _ => [] end) cs.

Fixpoint insertar (x : Q) (l : list Q) : list Q :=
  match l with
  | [] => [x]
  | y :: l' => if Qle_bool x y then x :: l else y :: insertar x l'
  end.

Definition ordenar (l : list Q) : list Q := fold_right insertar [] l.

(** Mantissa of the quotient [n / d] scaled by [2 ^ (- e)], rounded to the
    nearest integer, ties to even. *)
Definition mantisa_redondeada (n d : Z) (e : Z) : Z :=
  let num := if (0 <=? e)%Z then n else (n * 2 ^ (- e))%Z in
  let den := if (0 <=? e)%Z then (d * 2 ^ e)%Z else d in
  let q := (num / den)%Z in
  let r := (num mod den)%Z in
  if (den <? 2 * r)%Z || ((2 * r =? den)%Z && Z.odd q) then (q + 1)%Z else q.

(** The binary64 value nearest to [n / d], for positive [n] and [d]: a
    mantissa of 53 bits, or of fewer bits at the smallest exponent, -1074. *)
Definition redondear_cociente (n d : positive) : float :=
  let e0 := (Z.log2 (Zpos n) - Z.log2 (Zpos d) - 53)%Z in
  let e1 := if (2 ^ 53 <=? (Zpos n * 2 ^ Z.max 0 (- e0)) / (Zpos d * 2 ^ Z.max 0 e0))%Z
            then (e0 + 1)%Z else e0 in
  let e := Z.max e1 (-1074) in
  Z.ldexp (PrimFloat.of_uint63 (Uint63.of_Z (mantisa_redondeada (Zpos n) (Zpos d) e))) e.

(** The binary64 value of a number: the value itself when it is a binary64
    value, the nearest one otherwise (a decimal of a CSV cell or of a JSON
    body). *)
Definition a_float (q : Q) : float :=
  match Qnum q with
  | Z0 => PrimFloat.zero
  | Zpos n => redondear_cociente n (Qden q)
  | Zneg n => PrimFloat.opp (redondear_cociente n (Qden q))
  end.

(** numpy's [_lerp(a, b, t)], [a] and [b] being the two neighbours taken from
    the sorted column: their difference is the exact one in an [int64]
    column and the binary64 one otherwise. *)
Definition lerp (d : dtype) (a b : Q) (t : float) : float :=
  let diff_b_a :=
    match d with
    | int64 => a_float (b - a)
    | _ => PrimFloat.sub (a_float b) (a_float a)
    end in
  if PrimFloat.leb (a_float (1 # 2)) t
  then PrimFloat.sub (a_float b) (PrimFloat.mul diff_b_a (PrimFloat.sub PrimFloat.one t))
  else PrimFloat.add (a_float a) (PrimFloat.mul diff_b_a t).

(** [Series.quantile(q)] with the default linear interpolation over the
    non-null values, as [np.percentile] computes it: virtual index
    [(n - 1) * q] (exact in binary64 for the [q] of the code, 0.25 and 0.75),
    its two neighbours and [_lerp].  [None] stands for the [NaN] that pandas
    returns when there is no value. *)
Definition quantile (d : dtype) (cs : list cell) (q : Q) : option float :=
  let xs := ordenar (no_nulos cs) in
  match xs with
  | [] => None
  | _ =>
      let n := length xs in
      let pos := (inject_Z (Z.of_nat (n - 1)) * q)%Q in
      let lo := Z.to_nat (Qfloor pos) in
      let gamma := a_float (pos - inject_Z (Qfloor pos)) in
      let a := nth lo xs 0%Q in
      let b := nth (Nat.min (lo + 1) (n - 1)) xs 0%Q in
      Some (lerp d a b gamma)
  end.

Inductive excepcion : Type :=
| KeyError (col : string)
| TypeError (col : string).

(** Outcome of a block that may raise: on a raise, the local variables as
    they were at that point. *)
Inductive salida (A : Type) : Type :=
| Normal (a : A)
| Lanza (e : excepcion) (locales : A).
Arguments Normal {A} a.
Arguments Lanza {A} e locales.

(** Position and dtype of the column called [col]. *)
Fixpoint buscar_columna (col : string) (cs : list (string * dtype)) (j : nat)
  : option (nat * dtype) :=
  match cs with
  | [] => None
  | (nombre, d) :: cs' =>
      if String.eqb nombre col then Some (j, d) else buscar_columna col cs' (S j)
  end.

Definition es_numerico (d : dtype) : bool :=
  match d with object => false | _ => true end.

Definition es_texto (c : cell) : bool :=
  match c with Str _ => true | _ => false end.

(** [(df[col] >= lower) & (df[col] <= upper)]; a comparison with a missing
    value is [False]. *)
Definition dentro (lower upper : float) (c : cell) : bool :=
  match c with
  | Num v => PrimFloat.leb lower (a_float v) && PrimFloat.leb (a_float v) upper
  | _ => false
  end.

(** One iteration of [for col in columnas].  The code has no test on the
    dtype: [quantile] raises a [TypeError] on an [object] column that holds a
    string, and on no other column. *)
Definition filtrar_columna (umbral : Q) (df : DataFrame) (col : string)
  : salida DataFrame :=
  match buscar_columna col (columns df) 0 with
  | None => Lanza (KeyError col) df
  | Some (j, d) =>
      let vals := valores_columna j (rows df) in
      if es_numerico d || negb (existsb es_texto vals) then
        match quantile d vals (1 # 4), quantile d vals (3 # 4) with
        | Some Q1, Some Q3 =>
            let IQR := PrimFloat.sub Q3 Q1 in
            let lower := PrimFloat.sub Q1 (PrimFloat.mul (a_float umbral) IQR) in
            let upper := PrimFloat.add Q3 (PrimFloat.mul (a_float umbral) IQR) in
            Normal (getitem_mask df (map (dentro lower upper) vals))
        | _, _ => Normal (getitem_mask df (map (fun _ => false) vals))
        end
      else Lanza (TypeError col) df
  end.

Fixpoint filtrar_outliers (umbral : Q) (cols : list string) (df : DataFrame)
  : salida DataFrame :=
  match cols with
  | [] => Normal df
  | col :: cols' =>
      match filtrar_columna umbral df col with
      | Normal df' => filtrar_outliers umbral cols' df'
      | Lanza e df' => Lanza e df'
      end
  end.

(** [list(df.select_dtypes(include=['float64', 'int64']).columns)] *)
Definition columnas_numericas (df : DataFrame) : list string :=
  map fst (filter (fun cd => es_numerico (snd cd)) (columns df)).

(** ** The operation loop *)

Record Parametros : Type := mkParametros {
  columnas : option (list string);
  umbral : option Q
}.

(** One element of [tipos_limpieza]. *)
Record Limpieza : Type := mkLimpieza {
  tipo : option string;
  parametros : Parametros
}.

(** One element of [operaciones_realizadas]. *)
Record Operacion : Type := mkOperacion {
  op_tipo : option string;
  op_parametros : Parametros;
  afectados : Z
}.

(** The variables the loop updates. *)
Record Estado : Type := mkEstado {
  df : DataFrame;
  duplicados_guardados : DataFrame;
  operaciones_realizadas : list Operacion;
  total_afectados : Z
}.

Definition estado_inicial (d : DataFrame) : Estado :=
  mkEstado d DataFrame_vacio [] 0%Z.

Definition es_tipo (t : option string) (s : string) : bool :=
  match t with
  | Some t' => String.eqb t' s
  | None => false
  end.

(** The tail of the loop body: append the report entry, add to the total. *)
Definition registrar (st : Estado) (l : Limpieza) (df' dups' : DataFrame) (af : Z)
  : Estado :=
  mkEstado df' dups'
    (operaciones_realizadas st ++ [mkOperacion (tipo l) (parametros l) af])
    (total_afectados st + af)%Z.

Definition get_or {A : Type} (o : option A) (d : A) : A :=
  match o with Some a => a | None => d end.

(** The body of [for limpieza in tipos_limpieza]. *)
Definition aplicar_limpieza (st : Estado) (l : Limpieza) : salida Estado :=
  if es_tipo (tipo l) "duplicados" then
    let antes := len (df st) in
    let dups := getitem_mask (df st) (duplicated (df st)) in
    let df' := drop_duplicates (df st) in
    Normal (registrar st l df' dups (Z.of_nat antes - Z.of_nat (len df'))%Z)
  else if es_tipo (tipo l) "nulos" then
    let nulos_antes := isnull_sum_sum (df st) in
    Normal (registrar st l (rellenar_nulos (df st)) (duplicados_guardados st)
              (Z.of_nat nulos_antes))
  else if es_tipo (tipo l) "outliers" then
    let cols := get_or (columnas (parametros l)) (columnas_numericas (df st)) in
    let u := get_or (umbral (parametros l)) (3 # 2) in
    let antes := len (df st) in
    match filtrar_outliers u cols (df st) with
    | Normal df' =>
        Normal (registrar st l df' (duplicados_guardados st)
                  (Z.of_nat antes - Z.of_nat (len df'))%Z)
    | Lanza e df' =>
        Lanza e (mkEstado df' (duplicados_guardados st)
                   (operaciones_realizadas st) (total_afectados st))
    end
  else
    Normal (registrar st l (df st) (duplicados_guardados st) 0%Z).

Fixpoint aplicar_limpiezas (st : Estado) (tipos_limpieza : list Limpieza)
  : salida Estado :=
  match tipos_limpieza with
  | [] => Normal st
  | l :: resto =>
      match aplicar_limpieza st l with
      | Normal st' => aplicar_limpiezas st' resto
      | Lanza e st' => Lanza e st'
      end
  end.

(** Operation descriptors. *)
Definition sin_parametros : Parametros := mkParametros None None.
Definition op_duplicados : Limpieza := mkLimpieza (Some "duplicados") sin_parametros.
Definition op_nulos : Limpieza := mkLimpieza (Some "nulos") sin_parametros.
Definition op_outliers (cols : list string) (u : Q) : Limpieza :=
  mkLimpieza (Some "outliers") (mkParametros (Some cols) (Some u)).

(** ** Reading a payload: [pd.read_csv] / [pd.read_json] with an encoding *)

Inductive codificacion : Type := utf_8 | latin_1.

Inductive lector : Type := read_csv | read_json.

Inductive error_lectura : Type :=
| UnicodeDecodeError
| ParserError.

Inductive lectura : Type :=
| Leido (d : DataFrame)
| Falla (e : error_lectura).

(** Text is a list of code points. *)
Definition texto : Type := list N.

Definition es_continuacion (b : N) : bool :=
  ((128 <=? b) && (b <=? 191))%N.

(** Code point of a multi-byte sequence: accepted when it is not an overlong
    form, not a surrogate and not above U+10FFFF. *)
Definition punto_valido (minimo cp : N) : bool :=
  ((minimo <=? cp) && (cp <=? 1114111) && negb ((55296 <=? cp) && (cp <=? 57343)))%N.

(** The strict UTF-8 codec: [None] is a [UnicodeDecodeError]. *)
Fixpoint decode_utf8 (bs : list Byte.byte) : option texto :=
  match bs with
  | [] => Some []
  | c0 :: r0 =>
      let b0 := Byte.to_N c0 in
      if (b0 <? 128)%N then option_map (cons b0) (decode_utf8 r0)
      else if ((192 <=? b0) && (b0 <? 224))%N then
        match r0 with
        | c1 :: r1 =>
            let b1 := Byte.to_N c1 in
            let cp := ((b0 - 192) * 64 + (b1 - 128))%N in
            if es_continuacion b1 && punto_valido 128 cp
            then option_map (cons cp) (decode_utf8 r1) else None
        | _ => None
        end
      else if ((224 <=? b0) && (b0 <? 240))%N then
        match r0 with
        | c1 :: c2 :: r2 =>
            let b1 := Byte.to_N c1 in
            let b2 := Byte.to_N c2 in
            let cp := ((b0 - 224) * 4096 + (b1 - 128) * 64 + (b2 - 128))%N in
            if es_continuacion b1 && es_continuacion b2 && punto_valido 2048 cp
            then option_map (cons cp) (decode_utf8 r2) else None
        | _ => None
        end
      else if ((240 <=? b0) && (b0 <? 248))%N then
        match r0 with
        | c1 :: c2 :: c3 :: r3 =>
            let b1 := Byte.to_N c1 in
            let b2 := Byte.to_N c2 in
            let b3 := Byte.to_N c3 in
            let cp := ((b0 - 240) * 262144 + (b1 - 128) * 4096
                       + (b2 - 128) * 64 + (b3 - 128))%N in
            if es_continuacion b1 && es_continuacion b2 && es_continuacion b3
               && punto_valido 65536 cp
            then option_map (cons cp) (decode_utf8 r3) else None
        | _ => None
        end
      else None
  end.

(** Latin-1 maps every byte to the code point of the same number. *)
Definition decode_latin1 (bs : list Byte.byte) : texto := map Byte.to_N bs.

Definition decode (enc : codificacion) (bs : list Byte.byte) : option texto :=
  match enc with
  | utf_8 => decode_utf8 bs
  | latin_1 => Some (decode_latin1 bs)
  end.

(** [str.endswith] *)
Definition endswith (s sufijo : string) : bool :=
  let n := String.length s in
  let m := String.length sufijo in
  if m <=? n then String.eqb (substring (n - m) m s) sufijo else false.

(** [os.path.basename] *)
Fixpoint basename_aux (acc s : string) : string :=
  match s with
  | EmptyString => acc
  | String c s' =>
      if Ascii.eqb c "/" then basename_aux EmptyString s'
      else basename_aux (acc ++ String c EmptyString) s'
  end.

Definition basename (s : string) : string := basename_aux EmptyString s.

(** The lines of a payload: the byte strings between line feeds. *)
Definition es_LF (b : Byte.byte) : bool := (Byte.to_N b =? 10)%N.

Fixpoint lineas (bs : list Byte.byte) : list (list Byte.byte) :=
  match bs with
  | [] => [[]]
  | b :: r =>
      if es_LF b then [] :: lineas r
      else match lineas r with
           | l :: ls => (b :: l) :: ls
           | [] => [[b]]
           end
  end.

(** The elements of [xs] at the positions that [mask] marks. *)
Fixpoint seleccionar {A : Type} (mask : list bool) (xs : list A) : list A :=
  match mask, xs with
  | m :: mask', x :: xs' =>
      if m then x :: seleccionar mask' xs' else seleccionar mask' xs'
  | _, _ => []
  end.

(** The text of each line; [None] when one of them cannot be decoded. *)
Fixpoint decodificar_lineas (enc : codificacion) (ls : list (list Byte.byte))
  : option (list texto) :=
  match ls with
  | [] => Some []
  | l :: r =>
      match decode enc l, decodificar_lineas enc r with
      | Some t, Some ts => Some (t :: ts)
      | _, _ => None
      end
  end.

(** The structural parsers of pandas, which are not modelled.
    - [analizar_csv]: [pd.read_csv] splits the bytes of the file into
      records before it decodes anything, and decodes only the fields it
      turns into values.  For the lines of the file it gives the lines whose
      fields it decodes (a line it skips, or one it does not reach because
      it raised before, is not among them) and the frame it builds from the
      text of those lines, [None] when it raises a parser error.
    - [analizar_json]: [pd.read_json] reads the whole file as text and
      parses that text; [None] when it raises. *)
Record analizador : Type := mkAnalizador {
  analizar_csv :
    list (list Byte.byte) -> list bool * (list texto -> option DataFrame);
  analizar_json : texto -> option DataFrame
}.

Section Lectura.

Variable parse : analizador.

(** [pd.read_csv(path, encoding=enc)] / [pd.read_json(path, encoding=enc)] *)
Definition leer (l : lector) (enc : codificacion) (bs : list Byte.byte) : lectura :=
  match l with
  | read_csv =>
      let ls := lineas bs in
      let (mask, construir) := analizar_csv parse ls in
      match decodificar_lineas enc (seleccionar mask ls) with
      | None => Falla UnicodeDecodeError
      | Some ts =>
          match construir ts with
          | Some d => Leido d
          | None => Falla ParserError
          end
      end
  | read_json =>
      match decode enc bs with
      | None => Falla UnicodeDecodeError
      | Some t =>
          match analizar_json parse t with
          | Some d => Leido d
          | None => Falla ParserError
          end
      end
  end.

(** [try: read(utf-8) except UnicodeDecodeError: read(latin-1)], with the
    list of the attempts made. *)
Definition leer_con_respaldo (l : lector) (bs : list Byte.byte)
  : lectura * list (lector * codificacion) :=
  match leer l utf_8 bs with
  | Falla UnicodeDecodeError => (leer l latin_1 bs, [(l, utf_8); (l, latin_1)])
  | r => (r, [(l, utf_8)])
  end.

End Lectura.

Inductive carga : Type :=
| Cargado (d : DataFrame)
| FormatoNoSoportado
| ErrorDeLectura (e : error_lectura).

Definition carga_de (r : lectura) : carga :=
  match r with
  | Leido d => Cargado d
  | Falla e => ErrorDeLectura e
  end.

Section LecturaDeArchivo.

(** The parsers as [create_dataset] calls them, with their default options
    (lines 52, 54 and 56): a malformed line makes [read_csv] raise. *)
Variable parse : analizador.

(** The reading block of [create_dataset] (lines 50-58), reached once the
    uploaded file has been saved. *)
Definition cargar_archivo (filename : string) (bs : list Byte.byte)
  : carga * list (lector * codificacion) :=
  if endswith filename ".csv" then
    let (r, log) := leer_con_respaldo parse read_csv bs in (carga_de r, log)
  else if endswith filename ".json" then
    (carga_de (leer parse read_json utf_8 bs), [(read_json, utf_8)])
  else (FormatoNoSoportado, []).

End LecturaDeArchivo.

Section LecturaParaLimpieza.

(** [pd.read_csv] as [limpiar_dataset_multiple] calls it, with
    [on_bad_lines='skip'] (lines 147 and 149): a malformed line is left
    out. *)
Variable parse : analizador.

(** The reading block of [limpiar_dataset_multiple]: always [read_csv]. *)
Definition cargar_para_limpieza (bs : list Byte.byte)
  : lectura * list (lector * codificacion) :=
  leer_con_respaldo parse read_csv bs.

End LecturaParaLimpieza.

(** ** The endpoint [limpiar_dataset_multiple] *)

Inductive registro : Type :=
| RegistroDuplicados (dataset_id : Z) (ruta_duplicados : string) (num_registros : nat)
| RegistroLimpieza (dataset_id : Z) (tipo_limpieza : string)
    (parametros_usados : list Operacion) (num_registros_afectados : Z)
    (ruta_dataset_limpio : string) (ruta_duplicados : option string)
    (estado : string).

(** Calls to the external collaborators, in the order they are made. *)
Inductive efecto : Type :=
| Select (tabla : string) (id : Z)
| Download (ruta : string)
| Upload (ruta : string) (contenido : DataFrame)
| Insert (tabla : string) (r : registro).

Inductive error_500 : Type :=
| PorOperacion (e : excepcion)
| PorLectura (e : error_lectura)
| PorDescarga.

Inductive respuesta : Type :=
| R400 (error : string)
| R404 (error : string)
| R500 (error : error_500)
| R200 (operaciones : list Operacion) (total : Z)
    (ruta_dataset_limpio : string) (ruta_duplicados : option string)
    (limpieza_id : option Z).

Record Peticion : Type := mkPeticion {
  dataset_id : option Z;
  tipos_limpieza : list Limpieza
}.

(** [not dataset_id] *)
Definition sin_dataset_id (o : option Z) : bool :=
  match o with
  | None => true
  | Some z => (z =? 0)%Z
  end.

(** [not tipos_limpieza] *)
Definition sin_tipos (l : list Limpieza) : bool :=
  match l with [] => true | _ => false end.

Section Servicio.

(** [pd.read_csv] with [on_bad_lines='skip']. *)
Variable parse : analizador.
(** The [datasets] table: [ruta_almacenamiento] of the row with this id. *)
Variable tabla_datasets : Z -> option string.
(** The [datasets] bucket. *)
Variable storage : string -> option (list Byte.byte).
Variable get_public_url : string -> string.
(** Identifier given by the catalog to the inserted run record. *)
Variable id_generado : option Z.

(** The part of the endpoint after the loop: uploads, records, response,
    with the calls listed for a run in which the storage and the catalog
    answer every call. *)
Definition publicar (id : Z) (ruta_dataset : string) (st : Estado)
  : respuesta * list efecto :=
  let clean_filename := "clean_multi_" ++ basename ruta_dataset in
  let ruta_storage_clean := "clean/" ++ clean_filename in
  let subir_limpio := [Upload ruta_storage_clean (df st)] in
  let dups := duplicados_guardados st in
  let ruta_storage_dups :=
    if negb (empty dups)
    then Some ("duplicates/" ++ "duplicates_" ++ basename ruta_dataset)
    else None in
  let guardar_dups :=
    match ruta_storage_dups with
    | Some r =>
        [Upload r dups;
         Insert "duplicados_datasets" (RegistroDuplicados id r (len dups))]
    | None => []
    end in
  let public_url_clean := get_public_url ruta_storage_clean in
  let public_url_dups := option_map get_public_url ruta_storage_dups in
  let insertar_limpieza :=
    [Insert "limpiezas_datos"
       (RegistroLimpieza id "multiple" (operaciones_realizadas st)
          (total_afectados st) ruta_storage_clean ruta_storage_dups
          "Completada")] in
  (R200 (operaciones_realizadas st) (total_afectados st)
     public_url_clean public_url_dups id_generado,
   (subir_limpio ++ guardar_dups ++ insertar_limpieza)%list).

Definition limpiar_dataset_multiple (req : Peticion) : respuesta * list efecto :=
  if sin_dataset_id (dataset_id req) || sin_tipos (tipos_limpieza req) then
    (R400 "Debe incluir dataset_id y una lista de tipos_limpieza.", [])
  else
    let id := get_or (dataset_id req) 0%Z in
    let consulta := [Select "datasets" id] in
    match tabla_datasets id with
    | None => (R404 "Dataset no encontrado.", consulta)
    | Some ruta_dataset =>
        let descarga := (consulta ++ [Download ruta_dataset])%list in
        match storage ruta_dataset with
        | None => (R500 PorDescarga, descarga)
        | Some bs =>
            match fst (cargar_para_limpieza parse bs) with
            | Falla e => (R500 (PorLectura e), descarga)
            | Leido d =>
                match aplicar_limpiezas (estado_inicial d) (tipos_limpieza req) with
                | Lanza e _ => (R500 (PorOperacion e), descarga)
                | Normal st =>
                    let (resp, efectos) := publicar id ruta_dataset st in
                    (resp, (descarga ++ efectos)%list)
                end
            end
        end
    end.

End Servicio.

(** ** Definitions used to state the properties *)

(** Rows kept by [drop_duplicates] when the rows in [vistos] came before. *)
Definition conservadas (vistos rs : list fila) : list fila :=
  mask_rows (map negb (duplicated_aux vistos rs)) rs.

Definition marco_x : DataFrame :=
  mkDataFrame [("x", float64)] [[Num 1]; [Num 2]; [Num 2]; [NaN]].

(** Following the specification's words: the rows removed by every
    Deduplicate operation of the run, accumulated in removal order. *)
Fixpoint duplicados_acumulados_spec (st : Estado) (ls : list Limpieza) : list fila :=
  match ls with
  | [] => []
  | l :: resto =>
      ((if es_tipo (tipo l) "duplicados"
        then mask_rows (duplicated (df st)) (rows (df st)) else [])
       ++ match aplicar_limpieza st l with
          | Normal st' => duplicados_acumulados_spec st' resto
          | Lanza _ _ => []
          end)%list
  end.

Definition marco_nan_0_0 : DataFrame :=
  mkDataFrame [("x", float64)] [[NaN]; [Num 0]; [Num 0]].

Definition marco_ab : DataFrame :=
  mkDataFrame [("A", int64); ("B", int64)]
    [[Num 1; Num 0]; [Num 1; Num 0]; [Num 1; Num 0]; [Num 1; Num 2];
     [Num 100; Num 2]].

(** The frame seen cell by cell: the number of null cells. *)
Definition celdas_nulas (d : DataFrame) : nat :=
  fold_right Nat.add 0 (map contar_nulos (rows d)).

(** The row after the [fillna] of every column. *)
Fixpoint rellenar_fila (ds : list dtype) (r : fila) : fila :=
  match ds, r with
  | dt :: ds', c :: r' => fillna (relleno dt) c :: rellenar_fila ds' r'
  | _, _ => r
  end.

Definition uno_si_nulo (c : cell) : nat := if isnull c then 1 else 0.

Definition marco_mixto : DataFrame :=
  mkDataFrame [("nombre", object); ("edad", float64)]
    [[Str "ana"; NaN]; [NaN; Num 30]; [NaN; NaN]].

(** The column [c] exists in the header and has a numeric dtype. *)
Definition columna_numerica (cs : list (string * dtype)) (c : string) : bool :=
  match buscar_columna c cs 0 with
  | Some (_, dt) => es_numerico dt
  | None => false
  end.

(** What the column loop raises at the column [c] of the frame [d] it has
    reached: [KeyError] when [d] has no such column, [TypeError] when the
    column has dtype [object] and still holds a text value in [d]. *)
Inductive columna_invalida (d : DataFrame) (c : string) : excepcion -> Prop :=
| no_existe :
    buscar_columna c (columns d) 0 = None -> columna_invalida d c (KeyError c)
| con_texto (j : nat) :
    buscar_columna c (columns d) 0 = Some (j, object) ->
    existsb es_texto (valores_columna j (rows d)) = true ->
    columna_invalida d c (TypeError c).

(** A text column and a numeric column with no value. *)
Definition marco_sin_edad : DataFrame :=
  mkDataFrame [("nombre", object); ("edad", float64)]
    [[Str "ana"; NaN]; [Str "luis"; NaN]].

Definition marco_personas : DataFrame :=
  mkDataFrame [("nombre", object); ("edad", float64)]
    [[Str "ana"; Num 30]; [Str "luis"; Num 41]; [Str "ana"; Num 30];
     [Str "eva"; NaN]].

(** A stand-in for the parsers: every line is read and, whatever the text,
    the frame is [d]. *)
Definition parse_fijo (d : DataFrame) : analizador :=
  mkAnalizador (fun ls => (map (fun _ => true) ls, fun _ => Some d))
    (fun _ => Some d).

Definition tabla_ejemplo (id : Z) : option string :=
  if (id =? 7)%Z then Some "datasets/personas.csv" else None.

Definition storage_ejemplo (ruta : string) : option (list Byte.byte) :=
  if String.eqb ruta "datasets/personas.csv" then Some [Byte.x78; Byte.x0a] else None.

Definition url_ejemplo (ruta : string) : string :=
  ("https://storage.example/" ++ ruta)%string.

Definition servicio_ejemplo (d : DataFrame) : Peticion -> respuesta * list efecto :=
  limpiar_dataset_multiple (parse_fijo d) tabla_ejemplo storage_ejemplo
    url_ejemplo (Some 1%Z).

Definition estado_mixto_sin_duplicados : Estado :=
  Eval vm_compute in
    match aplicar_limpiezas (estado_inicial marco_mixto) [op_duplicados] with
    | Normal st => st
    | Lanza _ st => st
    end.

Definition estado_personas_sin_duplicados : Estado :=
  Eval vm_compute in
    match aplicar_limpiezas (estado_inicial marco_personas) [op_duplicados] with
    | Normal st => st
    | Lanza _ st => st
    end.

(** The frame of [estado_personas_sin_duplicados] filtered by [edad]. *)
Definition marco_personas_edad : DataFrame :=
  mkDataFrame [("nombre", object); ("edad", float64)]
    [[Str "ana"; Num 30]; [Str "luis"; Num 41]].

Definition marco_e : DataFrame := mkDataFrame [("x", object)] [[Str "e"]].

(** Stand-in parsers that read every line and accept only the text made of
    the single letter U+00E9. *)
Definition parse_e_aguda : analizador :=
  mkAnalizador
    (fun ls =>
       (map (fun _ => true) ls,
        fun ts => match ts with [[233%N]] => Some marco_e | _ => None end))
    (fun t => match t with [233%N] => Some marco_e | _ => None end).

(** A stand-in for [read_csv] with [on_bad_lines='skip'] on a file whose
    second line is malformed: that line is left out, and the frame is [d]. *)
Definition parse_sin_segunda (d : DataFrame) : analizador :=
  mkAnalizador
    (fun ls =>
       (match ls with
        | _ :: _ :: r => true :: false :: map (fun _ => true) r
        | _ => map (fun _ => true) ls
        end,
        fun _ => Some d))
    (fun _ => Some d).

(** A line, or a payload, is valid UTF-8. *)
Definition utf8_valida (bs : list Byte.byte) : bool :=
  match decode_utf8 bs with
  | Some _ => true
  | None => false
  end.

(** The lines of the payload that [read_csv] decodes. *)
Definition lineas_leidas (p : analizador) (bs : list Byte.byte)
  : list (list Byte.byte) :=
  seleccionar (fst (analizar_csv p (lineas bs))) (lineas bs).

(** The frame [read_csv] builds from the text of the lines it decoded. *)
Definition construir (p : analizador) (bs : list Byte.byte)
  : list texto -> option DataFrame :=
  snd (analizar_csv p (lineas bs)).

(** The value a block ended with: its result, or its local variables at the
    raise. *)
Definition locales_de {A : Type} (s : salida A) : A :=
  match s with
  | Normal a => a
  | Lanza _ a => a
  end.

(** Sum of the [afectados] fields of a report. *)
Definition suma_afectados (ops : list Operacion) : Z :=
  fold_right Z.add 0%Z (map afectados ops).

(** Calls that change the storage or the catalog. *)
Definition es_escritura (e : efecto) : bool :=
  match e with
  | Upload _ _ | Insert _ _ => true
  | _ => false
  end.

(** ** The other endpoints: JSON bodies, catalog rows and calls *)

Local Unset Elimination Schemes.

Inductive json : Type :=
| JNull
| JBool (b : bool)
| JNum (q : Q)
| JStr (s : string)
| JList (l : list json)
| JObj (campos : list (string * json)).

Local Set Elimination Schemes.

(** A JSON object: a request body, a row of a table. *)
Definition dict : Type := list (string * json).

Fixpoint dict_get (k : string) (d : dict) : option json :=
  match d with
  | [] => None
  | (k', v) :: d' => if String.eqb k' k then Some v else dict_get k d'
  end.

(** [k in d] *)
Definition dict_in (k : string) (d : dict) : bool :=
  match dict_get k d with
  | Some _ => true
  | None => false
  end.

(** [d.get(k)], and [d[k]] once [k in d] has been checked: [None] is sent
    as [null]. *)
Definition get_json (k : string) (d : dict) : json :=
  get_or (dict_get k d) JNull.

(** [x[k]] with a string key: [None] when it raises, [KeyError] on an object
    without the key and [TypeError] on a value that is not an object. *)
Definition subscript (x : json) (k : string) : option json :=
  match x with
  | JObj campos => dict_get k campos
  | _ => None
  end.

(** [response.data[0][k]]: [None] when it raises ([IndexError], [KeyError]). *)
Definition primer_campo (data : list dict) (k : string) : option json :=
  match data with
  | fila :: _ => dict_get k fila
  | [] => None
  end.

(** Calls to the storage and to the catalog made by the other endpoints, in
    the order they are made; a call that raises is the last one. *)
Inductive llamada : Type :=
| StorageUpload (ruta : string) (contenido : list Byte.byte)
| TableInsert (tabla : string) (fila : dict)
| TableUpdate (tabla : string) (campos : dict) (columna : string) (valor : json)
| TableSelect (tabla : string) (columna : string) (valor : json).

(** A response: status and JSON body; the body of a 500, the text of the
    exception, is not modelled. *)
Inductive http : Type :=
| Http (status : nat) (cuerpo : dict)
| Http500.

(** The body of a request to [create_dataset]: [request.files] has a
    ['file'], or the request is JSON, or neither. *)
Inductive PeticionDataset : Type :=
| ConArchivo (filename : string) (contenido : list Byte.byte)
| ConJson (data : dict)
| SinCuerpo.

Definition ligar {A B : Type} (o : option A) (f : A -> option B) : option B :=
  match o with
  | Some a => f a
  | None => None
  end.

(** [str] of an integer. *)
Definition str_Z (z : Z) : string := NilZero.string_of_int (Z.to_int z).

(** [os.path.join(a, b)] *)
Definition path_join (a b : string) : string :=
  match b with
  | String c _ =>
      if Ascii.eqb c "/" then b
      else if String.eqb a "" || endswith a "/" then (a ++ b)%string
      else (a ++ "/" ++ b)%string
  | EmptyString =>
      if String.eqb a "" || endswith a "/" then a else (a ++ "/")%string
  end.

Section Endpoints.

(** [pd.read_csv] and [pd.read_json] with their default options. *)
Variable parse : analizador.
(** [open(path, "wb")] on the file system of the server, for a path that
    does not name a directory: [false] when it raises (the directory of the
    path does not exist, the path cannot be written). *)
Variable open_wb : string -> bool.
(** [storage.from_("datasets").upload]: [false] when it raises. *)
Variable upload : string -> list Byte.byte -> bool.
(** [table(t).insert(fila).execute()]: the rows of [response.data], [None]
    when it raises. *)
Variable insert : string -> dict -> option (list dict).
(** [table(t).update(campos).eq(columna, valor).execute()]: [false] when it
    raises. *)
Variable update : string -> dict -> string -> json -> bool.
(** [table(t).select(...).eq(columna, valor).limit(1).execute()] *)
Variable select : string -> string -> json -> option (list dict).
(** [datetime.datetime.now().isoformat()] *)
Variable ahora : string.

Definition fila_dataset_archivo (filename : string) (d : DataFrame) : dict :=
  [("nombre", JStr filename);
   ("ruta_almacenamiento", JStr ("datasets/" ++ filename)%string);
   ("num_filas", JNum (inject_Z (Z.of_nat (len d))));
   ("num_columnas", JNum (inject_Z (Z.of_nat (length (columns d)))));
   ("metadata_json", JObj []);
   ("fecha_carga", JStr ahora)].

Definition fila_dataset_json (data : dict) : dict :=
  [("nombre", get_json "nombre" data);
   ("ruta_almacenamiento", get_json "ruta_almacenamiento" data);
   ("num_filas", get_json "num_filas" data);
   ("num_columnas", get_json "num_columnas" data);
   ("metadata_json", get_or (dict_get "metadata_json" data) (JObj []));
   ("fecha_carga", JStr ahora)].

(** [file.save(temp_path)]: [false] when it raises.  A path that ends in
    [/] names a directory and cannot be opened for writing. *)
Definition file_save (temp_path : string) : bool :=
  negb (endswith temp_path "/") && open_wb temp_path.

Definition create_dataset (req : PeticionDataset) : http * list llamada :=
  match req with
  | ConArchivo filename bs =>
      let temp_path := path_join "temp" filename in
      if negb (file_save temp_path) then (Http500, []) else
      match fst (cargar_archivo parse filename bs) with
      | FormatoNoSoportado =>
          (Http 400 [("message", JStr "Formato no soportado. Solo CSV o JSON.")], [])
      | ErrorDeLectura _ => (Http500, [])
      | Cargado d =>
          let storage_path := ("datasets/" ++ filename)%string in
          let subida := StorageUpload storage_path bs in
          if upload storage_path bs then
            let fila := fila_dataset_archivo filename d in
            let insercion := TableInsert "datasets" fila in
            match insert "datasets" fila with
            | None => (Http500, [subida; insercion])
            | Some data =>
                match primer_campo data "id" with
                | None => (Http500, [subida; insercion])
                | Some id =>
                    (Http 201
                       [("message", JStr "Dataset subido y registrado correctamente.");
                        ("id", id);
                        ("nombre", JStr filename)],
                     [subida; insercion])
                end
            end
          else (Http500, [subida])
      end
  | ConJson data =>
      if match data with [] => true | _ => false end || negb (dict_in "nombre" data)
      then (Http 400 [("message", JStr "Faltan datos requeridos (nombre).")], [])
      else
        let fila := fila_dataset_json data in
        let insercion := TableInsert "datasets" fila in
        match insert "datasets" fila with
        | None => (Http500, [insercion])
        | Some r =>
            match primer_campo r "id", primer_campo r "nombre" with
            | Some id, Some nombre =>
                (Http 201
                   [("message", JStr "Dataset creado exitosamente desde JSON.");
                    ("id", id);
                    ("nombre", nombre)],
                 [insercion])
            | _, _ => (Http500, [insercion])
            end
        end
  | SinCuerpo =>
      (Http 400 [("message", JStr "Debe enviar un archivo o un JSON válido.")], [])
  end.

Definition fila_entrenamiento (data : dict) : dict :=
  [("limpieza_id", get_json "limpieza_id" data);
   ("tipo_modelo", get_json "tipo_modelo" data);
   ("epocas", get_json "epocas" data);
   ("batch_size", get_json "batch_size" data);
   ("learning_rate", get_json "learning_rate" data);
   ("operaciones_limpieza",
    get_or (dict_get "operaciones_limpieza" data) (JList []));
   ("estado", JStr "En Curso");
   ("fecha_inicio", JStr ahora)].

Definition create_entrenamiento (data : dict) : http * list llamada :=
  if negb (forallb (fun field => dict_in field data) ["limpieza_id"; "tipo_modelo"])
  then (Http 400 [("message", JStr "Faltan limpieza_id y tipo_modelo.")], [])
  else
    let fila := fila_entrenamiento data in
    let insercion := TableInsert "entrenamientos" fila in
    match insert "entrenamientos" fila with
    | None => (Http500, [insercion])
    | Some r =>
        match primer_campo r "id", primer_campo r "estado" with
        | Some id, Some estado =>
            (Http 201
               [("message", JStr "Entrenamiento registrado exitosamente.");
                ("entrenamiento_id", id);
                ("estado", estado)],
             [insercion])
        | _, _ => (Http500, [insercion])
        end
    end.

Definition fila_resultado (data : dict) : dict :=
  [("entrenamiento_id", get_json "entrenamiento_id" data);
   ("accuracy", get_json "accuracy" data);
   ("f1_score", get_json "f1_score" data);
   ("loss_final", get_json "loss_final" data);
   ("grafico_accuracy_f1", get_json "grafico_accuracy_f1" data);
   ("grafico_loss", get_json "grafico_loss" data);
   ("modelo_guardado", get_json "modelo_guardado" data)].

Definition campos_finalizado : dict :=
  [("estado", JStr "Finalizado"); ("fecha_fin", JStr ahora)].

Definition create_resultado (data : dict) : http * list llamada :=
  if negb (forallb (fun field => dict_in field data)
             ["entrenamiento_id"; "accuracy"; "f1_score"; "loss_final"])
  then (Http 400 [("message", JStr "Faltan campos requeridos.")], [])
  else
    let fila := fila_resultado data in
    let insercion := TableInsert "resultados_metricas" fila in
    match insert "resultados_metricas" fila with
    | None => (Http500, [insercion])
    | Some res =>
        let entrenamiento := get_json "entrenamiento_id" data in
        let actualizacion :=
          TableUpdate "entrenamientos" campos_finalizado "id" entrenamiento in
        if update "entrenamientos" campos_finalizado "id" entrenamiento then
          match primer_campo res "id" with
          | Some id =>
              (Http 201
                 [("message", JStr "Resultados guardados y entrenamiento finalizado.");
                  ("resultado_id", id)],
               [insercion; actualizacion])
          | None => (Http500, [insercion; actualizacion])
          end
        else (Http500, [insercion; actualizacion])
    end.

(** The expression given for ["dataset_nombre"]. *)
Definition dataset_nombre (datos : dict) : option json :=
  if dict_in "limpiezas_datos" datos then
    ligar (dict_get "limpiezas_datos" datos) (fun l =>
    ligar (subscript l "datasets") (fun ds =>
    subscript ds "nombre"))
  else Some (JStr "N/A").

(** The dictionary [detalles]; [None] when one of its expressions raises. *)
Definition detalles (datos : dict) (resultado : list dict) : option dict :=
  ligar (dict_get "id" datos) (fun id =>
  ligar (dict_get "tipo_modelo" datos) (fun tipo_modelo =>
  ligar (dict_get "estado" datos) (fun estado =>
  ligar (dict_get "fecha_inicio" datos) (fun fecha_inicio =>
  ligar (dict_get "fecha_fin" datos) (fun fecha_fin =>
  ligar (dataset_nombre datos) (fun nombre =>
  Some [("id", id);
        ("tipo_modelo", tipo_modelo);
        ("estado", estado);
        ("fecha_inicio", fecha_inicio);
        ("fecha_fin", fecha_fin);
        ("dataset_nombre", nombre);
        ("metricas", match resultado with
                     | r :: _ => JObj r
                     | [] => JObj []
                     end)])))))).

Definition get_entrenamiento (entrenamiento_id : Z) : http * list llamada :=
  let consulta := TableSelect "entrenamientos" "id" (JNum (inject_Z entrenamiento_id)) in
  match select "entrenamientos" "id" (JNum (inject_Z entrenamiento_id)) with
  | None => (Http500, [consulta])
  | Some [] =>
      (Http 404
         [("message",
           JStr ("Entrenamiento con ID " ++ str_Z entrenamiento_id
                 ++ " no encontrado.")%string)],
       [consulta])
  | Some (datos :: _) =>
      let consulta_resultado :=
        TableSelect "resultados_metricas" "entrenamiento_id" (JNum (inject_Z entrenamiento_id)) in
      match select "resultados_metricas" "entrenamiento_id" (JNum (inject_Z entrenamiento_id)) with
      | None => (Http500, [consulta; consulta_resultado])
      | Some resultado =>
          match detalles datos resultado with
          | Some cuerpo => (Http 200 cuerpo, [consulta; consulta_resultado])
          | None => (Http500, [consulta; consulta_resultado])
          end
      end
  end.

End Endpoints.

(** A catalog and a storage for the examples: every call succeeds, an
    insert answers with the row and the identifier 1. *)
Definition upload_ejemplo (ruta : string) (bs : list Byte.byte) : bool := true.

(** A file system where [temp] has no subdirectory: a path can be opened
    for writing when it is [temp/<name>] with no other [/]. *)
Definition open_wb_ejemplo (path : string) : bool :=
  String.eqb ("temp/" ++ basename path)%string path.

Definition insert_ejemplo (tabla : string) (fila : dict) : option (list dict) :=
  Some [("id", JNum 1) :: fila].

Definition entrenamiento_sin_limpieza : dict :=
  [("id", JNum 5); ("tipo_modelo", JStr "mlp"); ("estado", JStr "En Curso");
   ("fecha_inicio", JStr "2025-01-01T00:00:00"); ("fecha_fin", JNull);
   ("limpiezas_datos", JNull)].

Definition select_ejemplo (tabla columna : string) (valor : json)
  : option (list dict) :=
  if String.eqb tabla "entrenamientos" then Some [entrenamiento_sin_limpieza]
  else Some [].

Definition cuerpo_resultado : dict :=
  [("entrenamiento_id", JNum 5); ("accuracy", JNum (9 # 10));
   ("f1_score", JNum (8 # 10)); ("loss_final", JNum (1 # 10))].

Definition select_sin_relacion (tabla columna : string) (valor : json)
  : option (list dict) :=
  if String.eqb tabla "entrenamientos"
  then Some [[("id", JNum 5); ("tipo_modelo", JStr "mlp");
              ("estado", JStr "En Curso");
              ("fecha_inicio", JStr "2025-01-01T00:00:00");
              ("fecha_fin", JNull)]]
  else Some [].


(** * Properties *)

Local Open Scope list_scope.

(** ** The loop as a fold *)

Lemma aplicar_limpiezas_app (st : Estado) (pre post : list Limpieza) :
  aplicar_limpiezas st (pre ++ post) =
  match aplicar_limpiezas st pre with
  | Normal st' => aplicar_limpiezas st' post
  | Lanza e st' => Lanza e st'
  end.
Proof.
  revert st. induction pre as [|l pre IH]; intros st; simpl.
  - reflexivity.
  - destruct (aplicar_limpieza st l) as [st'|e st']; [apply IH | reflexivity].
Qed.

(** A step that returns normally appends exactly one report entry, the echo
    of its descriptor. *)
Lemma aplicar_limpieza_registra (st st' : Estado) (l : Limpieza) :
  aplicar_limpieza st l = Normal st' ->
  exists af,
    operaciones_realizadas st' =
      (operaciones_realizadas st ++ [mkOperacion (tipo l) (parametros l) af])%list
    /\ total_afectados st' = (total_afectados st + af)%Z.
Proof.
  unfold aplicar_limpieza.
  destruct (es_tipo (tipo l) "duplicados").
  { intros H; injection H as <-; eexists; split; reflexivity. }
  destruct (es_tipo (tipo l) "nulos").
  { intros H; injection H as <-; eexists; split; reflexivity. }
  destruct (es_tipo (tipo l) "outliers").
  { destruct (filtrar_outliers _ _ _); intros H; [|discriminate].
    injection H as <-; eexists; split; reflexivity. }
  intros H; injection H as <-; eexists; split; reflexivity.
Qed.

(** The report of a run that returns normally echoes the submitted
    descriptors, in submission order, after what was there before. *)
Lemma aplicar_limpiezas_informe (ls : list Limpieza) :
  forall st st', aplicar_limpiezas st ls = Normal st' ->
  exists nuevas,
    operaciones_realizadas st' = (operaciones_realizadas st ++ nuevas)%list
    /\ map op_tipo nuevas = map tipo ls
    /\ map op_parametros nuevas = map parametros ls.
Proof.
  induction ls as [|l ls IH]; intros st st'; simpl.
  - intros H; injection H as <-. exists []. rewrite app_nil_r. auto.
  - destruct (aplicar_limpieza st l) as [st1|e st1] eqn:E; [|discriminate].
    intros H. destruct (aplicar_limpieza_registra _ _ _ E) as (af & Hops & _).
    destruct (IH _ _ H) as (nuevas & Hn & Ht & Hp).
    exists (mkOperacion (tipo l) (parametros l) af :: nuevas).
    rewrite Hn, Hops, <- app_assoc. simpl. rewrite Ht, Hp. auto.
Qed.

(** ** Deduplicate *)

Lemma existsb_incl_false {A : Type} (f : A -> bool) (v v' : list A) :
  incl v' v -> existsb f v = false -> existsb f v' = false.
Proof.
  intros Hin Hv. destruct (existsb f v') eqn:E; [|reflexivity].
  apply existsb_exists in E. destruct E as (x & Hx & Hf).
  assert (existsb f v = true) by (apply existsb_exists; exists x; auto).
  congruence.
Qed.

Lemma conservadas_cons (vistos : list fila) (r : fila) (rs : list fila) :
  conservadas vistos (r :: rs) =
  if existsb (fila_eqb r) vistos then conservadas (r :: vistos) rs
  else r :: conservadas (r :: vistos) rs.
Proof.
  unfold conservadas. simpl. destruct (existsb (fila_eqb r) vistos); reflexivity.
Qed.

(** Nothing is flagged among the kept rows, even with fewer rows in front. *)
Lemma conservadas_idem (rs : list fila) :
  forall v v', incl v' v ->
  conservadas v' (conservadas v rs) = conservadas v rs.
Proof.
  induction rs as [|r rs IH]; intros v v' Hin.
  - reflexivity.
  - rewrite (conservadas_cons v).
    destruct (existsb (fila_eqb r) v) eqn:E.
    + apply IH. apply incl_tl. exact Hin.
    + rewrite conservadas_cons, (existsb_incl_false _ _ _ Hin E).
      f_equal. apply IH. intros x [<-|Hx]; [left; reflexivity | right; auto].
Qed.

Lemma mask_rows_length_le (m : list bool) :
  forall rs, length (mask_rows m rs) <= length rs.
Proof.
  induction m as [|b m IH]; intros [|r rs]; simpl; try lia.
  specialize (IH rs). destruct b; simpl; lia.
Qed.

Lemma mask_rows_negb_false (m : list bool) :
  forall rs, length m = length rs ->
  mask_rows (map negb m) rs = rs -> forallb negb m = true.
Proof.
  induction m as [|b m IH]; intros [|r rs]; simpl; try discriminate; auto.
  intros Hl. destruct b; simpl.
  - intros H. exfalso.
    pose proof (mask_rows_length_le (map negb m) rs) as Hlen.
    rewrite H in Hlen. simpl in Hlen. lia.
  - intros H. injection H as H. apply (IH rs); [lia | exact H].
Qed.

Lemma duplicated_aux_length (rs : list fila) :
  forall v, length (duplicated_aux v rs) = length rs.
Proof. induction rs; intros v; simpl; auto. Qed.

Lemma drop_duplicates_idem (d : DataFrame) :
  drop_duplicates (drop_duplicates d) = drop_duplicates d.
Proof.
  unfold drop_duplicates, getitem_mask, duplicated. simpl. f_equal.
  apply (conservadas_idem (rows d) [] []). apply incl_refl.
Qed.

(** C7 — Two Deduplicate operations in immediate succession: both return
    normally, the second one reports [afectados = 0] and leaves the frame of
    the first, in which no row is flagged as a duplicate of an earlier one. *)
Theorem duplicados_dos_veces (st : Estado) (p1 p2 : Parametros) :
  exists st',
    aplicar_limpiezas st
      [mkLimpieza (Some "duplicados") p1; mkLimpieza (Some "duplicados") p2]
    = Normal st'
    /\ operaciones_realizadas st' =
       (operaciones_realizadas st ++
        [mkOperacion (Some "duplicados") p1
           (Z.of_nat (len (df st)) - Z.of_nat (len (drop_duplicates (df st))))%Z;
         mkOperacion (Some "duplicados") p2 0%Z])%list
    /\ df st' = drop_duplicates (df st)
    /\ forallb negb (duplicated (drop_duplicates (df st))) = true.
Proof.
  eexists. split; [reflexivity|]. simpl.
  rewrite drop_duplicates_idem, Z.sub_diag, <- app_assoc. simpl.
  repeat split.
  apply mask_rows_negb_false with (rs := rows (drop_duplicates (df st))).
  - apply duplicated_aux_length.
  - pose proof (drop_duplicates_idem (df st)) as H.
    unfold drop_duplicates at 1 in H. unfold getitem_mask in H.
    apply (f_equal rows) in H. exact H.
Qed.

Lemma get_or_Some {A : Type} (a d : A) : get_or (Some a) d = a.
Proof. reflexivity. Qed.

(** ** Unknown operation kinds *)

Lemma es_tipo_true (t : option string) (s : string) :
  es_tipo t s = true <-> t = Some s.
Proof.
  destruct t as [t|]; simpl.
  - rewrite String.eqb_eq. split; [intros -> | intros [= ->]]; reflexivity.
  - split; discriminate.
Qed.

Lemma es_tipo_false (t : option string) (s : string) :
  t <> Some s -> es_tipo t s = false.
Proof.
  intros H. destruct (es_tipo t s) eqn:E; [|reflexivity].
  apply es_tipo_true in E. contradiction.
Qed.

(** C6 — A descriptor whose kind is none of ["duplicados"], ["nulos"],
    ["outliers"], submitted after the operations [pre] (which ran normally):
    the step does not raise, leaves the frame, the side-table and the total
    as they were, records the descriptor at position [length pre] of the
    report with [afectados = 0], and the run goes on with the operations
    that follow. *)
Theorem tipo_desconocido_sin_efecto (d : DataFrame) (pre post : list Limpieza)
    (l : Limpieza) (st1 : Estado) :
  tipo l <> Some "duplicados" ->
  tipo l <> Some "nulos" ->
  tipo l <> Some "outliers" ->
  aplicar_limpiezas (estado_inicial d) pre = Normal st1 ->
  exists st2,
    aplicar_limpieza st1 l = Normal st2
    /\ df st2 = df st1
    /\ duplicados_guardados st2 = duplicados_guardados st1
    /\ total_afectados st2 = total_afectados st1
    /\ length (operaciones_realizadas st2) = S (length pre)
    /\ nth_error (operaciones_realizadas st2) (length pre)
       = Some (mkOperacion (tipo l) (parametros l) 0%Z)
    /\ aplicar_limpiezas (estado_inicial d) (pre ++ l :: post)
       = aplicar_limpiezas st2 post.
Proof.
  intros Hd Hn Ho Hpre.
  exists (registrar st1 l (df st1) (duplicados_guardados st1) 0%Z).
  destruct (aplicar_limpiezas_informe _ _ _ Hpre) as (nuevas & Hops & Ht & _).
  simpl in Hops.
  assert (Hlen : length (operaciones_realizadas st1) = length pre).
  { rewrite Hops, <- (length_map op_tipo), Ht, length_map. reflexivity. }
  assert (Hpaso : aplicar_limpieza st1 l
                  = Normal (registrar st1 l (df st1) (duplicados_guardados st1) 0%Z)).
  { unfold aplicar_limpieza.
    rewrite (es_tipo_false _ _ Hd), (es_tipo_false _ _ Hn), (es_tipo_false _ _ Ho).
    reflexivity. }
  repeat split.
  - exact Hpaso.
  - simpl. apply Z.add_0_r.
  - simpl. rewrite length_app, Hlen. simpl. lia.
  - simpl. rewrite nth_error_app2, Hlen, Nat.sub_diag by lia. reflexivity.
  - rewrite aplicar_limpiezas_app, Hpre. simpl. rewrite Hpaso. reflexivity.
Qed.

Lemma tipo_desconocido_sin_efecto_witness :
  exists st2,
    aplicar_limpieza
      (registrar (estado_inicial (mkDataFrame [("x", float64)] [[Num 1]; [NaN]]))
         op_nulos (mkDataFrame [("x", float64)] [[Num 1]; [Num 0]])
         DataFrame_vacio 1%Z)
      (mkLimpieza (Some "normalizar") sin_parametros) = Normal st2
    /\ df st2 = mkDataFrame [("x", float64)] [[Num 1]; [Num 0]]
    /\ nth_error (operaciones_realizadas st2) 1
       = Some (mkOperacion (Some "normalizar") sin_parametros 0%Z).
Proof.
  destruct (tipo_desconocido_sin_efecto
              (mkDataFrame [("x", float64)] [[Num 1]; [NaN]])
              [op_nulos] [op_duplicados]
              (mkLimpieza (Some "normalizar") sin_parametros)
              (registrar (estado_inicial (mkDataFrame [("x", float64)] [[Num 1]; [NaN]]))
                 op_nulos (mkDataFrame [("x", float64)] [[Num 1]; [Num 0]])
                 DataFrame_vacio 1%Z))
    as (st2 & H1 & H2 & _ & _ & _ & H6 & _).
  - simpl; discriminate.
  - simpl; discriminate.
  - simpl; discriminate.
  - reflexivity.
  - exists st2. repeat split; assumption.
Defined.

(** ** The scenario of the specification *)

(** C3 — On the frame with the single numeric column [x] and the rows
    1, 2, 2, null, the operations Deduplicate then FillNulls give the cleaned
    frame 1, 2, 0, the side-table with the single row 2, a report with
    (Deduplicate, 1) then (FillNulls, 1), and a total of 2. *)
Theorem escenario_duplicados_nulos :
  aplicar_limpiezas (estado_inicial marco_x) [op_duplicados; op_nulos] =
  Normal
    (mkEstado
       (mkDataFrame [("x", float64)] [[Num 1]; [Num 2]; [Num 0]])
       (mkDataFrame [("x", float64)] [[Num 2]])
       [mkOperacion (Some "duplicados") sin_parametros 1%Z;
        mkOperacion (Some "nulos") sin_parametros 1%Z]
       2%Z).
Proof. vm_compute. reflexivity. Qed.

(** ** The duplicates side-table over several Deduplicate operations *)

Lemma otra_operacion_conserva_duplicados (st st' : Estado) (l : Limpieza) :
  tipo l <> Some "duplicados" ->
  aplicar_limpieza st l = Normal st' ->
  duplicados_guardados st' = duplicados_guardados st.
Proof.
  intros Hd. unfold aplicar_limpieza. rewrite (es_tipo_false _ _ Hd).
  destruct (es_tipo (tipo l) "nulos").
  { intros H; injection H as <-; reflexivity. }
  destruct (es_tipo (tipo l) "outliers").
  { destruct (filtrar_outliers _ _ _); intros H; [|discriminate].
    injection H as <-; reflexivity. }
  intros H; injection H as <-; reflexivity.
Qed.

Lemma sin_duplicados_conserva (ls : list Limpieza) :
  forall st st',
  Forall (fun l => tipo l <> Some "duplicados") ls ->
  aplicar_limpiezas st ls = Normal st' ->
  duplicados_guardados st' = duplicados_guardados st.
Proof.
  induction ls as [|l ls IH]; intros st st' Hall; simpl.
  - intros H; injection H as <-; reflexivity.
  - inversion Hall as [|? ? Hl Hls]; subst.
    destruct (aplicar_limpieza st l) as [st1|e st1] eqn:E; [|discriminate].
    intros H. rewrite (IH _ _ Hls H).
    apply (otra_operacion_conserva_duplicados _ _ _ Hl E).
Qed.

(** Deduplicate, FillNulls, Deduplicate: each Deduplicate removes one row,
    the side-table at the end holds one row only. *)
Lemma duplicados_no_acumulados :
  exists st,
    aplicar_limpiezas (estado_inicial marco_nan_0_0)
      [op_duplicados; op_nulos; op_duplicados] = Normal st
    /\ duplicados_acumulados_spec (estado_inicial marco_nan_0_0)
         [op_duplicados; op_nulos; op_duplicados] = [[Num 0]; [Num 0]]
    /\ rows (duplicados_guardados st) = [[Num 0]]
    /\ rows (duplicados_guardados st)
       <> duplicados_acumulados_spec (estado_inicial marco_nan_0_0)
            [op_duplicados; op_nulos; op_duplicados].
Proof.
  eexists. split; [vm_compute; reflexivity|].
  split; [vm_compute; reflexivity|].
  split; [vm_compute; reflexivity|].
  vm_compute. discriminate.
Qed.

(** C1 (amended) — The side-table at the end of a run that returns normally
    holds the rows flagged by the last Deduplicate operation of the run, on
    the frame that operation received: each Deduplicate overwrites it and the
    other operations leave it as it is. *)
Theorem duplicados_del_ultimo (st st1 st2 : Estado) (pre post : list Limpieza)
    (l : Limpieza) :
  aplicar_limpiezas st pre = Normal st1 ->
  tipo l = Some "duplicados" ->
  Forall (fun l' => tipo l' <> Some "duplicados") post ->
  aplicar_limpiezas st (pre ++ l :: post) = Normal st2 ->
  duplicados_guardados st2 = getitem_mask (df st1) (duplicated (df st1)).
Proof.
  intros Hpre Hl Hpost Hrun.
  rewrite aplicar_limpiezas_app, Hpre in Hrun. simpl in Hrun.
  unfold aplicar_limpieza in Hrun.
  apply es_tipo_true in Hl. rewrite Hl in Hrun.
  rewrite (sin_duplicados_conserva _ _ _ Hpost Hrun). reflexivity.
Qed.

Lemma duplicados_del_ultimo_witness :
  exists st2,
    aplicar_limpiezas (estado_inicial marco_nan_0_0)
      [op_duplicados; op_nulos; op_duplicados; op_nulos] = Normal st2
    /\ duplicados_guardados st2 = mkDataFrame [("x", float64)] [[Num 0]].
Proof.
  eexists. split; [vm_compute; reflexivity|].
  apply (duplicados_del_ultimo (estado_inicial marco_nan_0_0)
           (mkEstado (mkDataFrame [("x", float64)] [[Num 0]; [Num 0]])
              (mkDataFrame [("x", float64)] [[Num 0]])
              [mkOperacion (Some "duplicados") sin_parametros 1%Z;
               mkOperacion (Some "nulos") sin_parametros 1%Z] 2%Z)
           _ [op_duplicados; op_nulos] [op_nulos] op_duplicados).
  - vm_compute. reflexivity.
  - reflexivity.
  - repeat constructor; simpl; discriminate.
  - vm_compute. reflexivity.
Defined.

(** ** RemoveOutliers and the order of its columns *)

(** With the threshold 1.5, listing [A] before [B] removes the row (1, 2)
    that listing [B] before [A] keeps. *)
Lemma outliers_depende_del_orden :
  exists d1 d2,
    filtrar_outliers (3 # 2) ["A"; "B"] marco_ab = Normal d1
    /\ filtrar_outliers (3 # 2) ["B"; "A"] marco_ab = Normal d2
    /\ len d1 = 3 /\ len d2 = 4
    /\ In [Num 1; Num 2] (rows d2)
    /\ ~ In [Num 1; Num 2] (rows d1).
Proof.
  do 2 eexists.
  split; [vm_compute; reflexivity|].
  split; [vm_compute; reflexivity|].
  split; [reflexivity|]. split; [reflexivity|].
  split.
  - simpl. auto.
  - simpl. intros [H|[H|[H|[]]]]; discriminate.
Qed.

Lemma mask_rows_incl (m : list bool) :
  forall rs, incl (mask_rows m rs) rs.
Proof.
  induction m as [|b m IH]; intros [|r rs]; simpl; try apply incl_refl.
  - intros x [].
  - destruct b.
    + intros x [<-|Hx]; [left; reflexivity | right; apply (IH rs); exact Hx].
    + apply incl_tl, IH.
Qed.

Lemma filtrar_columna_normal (u : Q) (d d' : DataFrame) (col : string) :
  filtrar_columna u d col = Normal d' ->
  columns d' = columns d /\ incl (rows d') (rows d).
Proof.
  unfold filtrar_columna.
  destruct (buscar_columna col (columns d) 0) as [[j dt]|]; [|discriminate].
  destruct (es_numerico dt || _); [|discriminate].
  destruct (quantile _ _ (1 # 4)) as [Q1|]; [destruct (quantile _ _ (3 # 4)) as [Q3|]|];
    intros H; injection H as <-; simpl; split; auto using mask_rows_incl.
Qed.

Lemma filtrar_outliers_normal (u : Q) (cols : list string) :
  forall d d', filtrar_outliers u cols d = Normal d' ->
  columns d' = columns d /\ incl (rows d') (rows d).
Proof.
  induction cols as [|c cols IH]; intros d d'; simpl.
  - intros H; injection H as <-. split; [reflexivity | apply incl_refl].
  - destruct (filtrar_columna u d c) as [d1|e d1] eqn:E; [|discriminate].
    intros H. destruct (filtrar_columna_normal _ _ _ _ E) as [Hc Hr].
    destruct (IH _ _ H) as [Hc' Hr']. split.
    + congruence.
    + eapply incl_tran; eassumption.
Qed.

Lemma filtrar_outliers_app (u : Q) (c1 c2 : list string) :
  forall d,
  filtrar_outliers u (c1 ++ c2) d =
    match filtrar_outliers u c1 d with
    | Normal d' => filtrar_outliers u c2 d'
    | Lanza e d' => Lanza e d'
    end.
Proof.
  induction c1 as [|c c1 IH]; intros d; simpl.
  - reflexivity.
  - destruct (filtrar_columna u d c) as [d1|e d1]; [apply IH | reflexivity].
Qed.

(** C2 (amended) — The columns are filtered cumulatively in the listed
    order: the outcome for the list [c1 ++ c2] is the outcome for [c2] on the
    frame left by [c1], the bounds of each column being computed on the rows
    the columns before it have left (and a raise in [c1] ends the loop);
    the rows that remain are rows of the frame the operation received. *)
Theorem filtrar_outliers_acumulativo (u : Q) (c1 c2 : list string) (d : DataFrame) :
  filtrar_outliers u (c1 ++ c2) d =
    match filtrar_outliers u c1 d with
    | Normal d' => filtrar_outliers u c2 d'
    | Lanza e d' => Lanza e d'
    end
  /\ forall d', filtrar_outliers u (c1 ++ c2) d = Normal d' ->
       columns d' = columns d /\ incl (rows d') (rows d).
Proof.
  split.
  - apply filtrar_outliers_app.
  - apply filtrar_outliers_normal.
Qed.

Lemma filtrar_outliers_acumulativo_witness :
  filtrar_outliers (3 # 2) ["A"; "B"] marco_ab =
    filtrar_outliers (3 # 2) ["B"]
      (mkDataFrame [("A", int64); ("B", int64)]
         [[Num 1; Num 0]; [Num 1; Num 0]; [Num 1; Num 0]; [Num 1; Num 2]])
  /\ incl [[Num 1; Num 0]; [Num 1; Num 0]; [Num 1; Num 0]] (rows marco_ab).
Proof.
  destruct (filtrar_outliers_acumulativo (3 # 2) ["A"] ["B"] marco_ab) as [H1 H2].
  split.
  - exact H1.
  - apply (H2 (mkDataFrame [("A", int64); ("B", int64)]
                 [[Num 1; Num 0]; [Num 1; Num 0]; [Num 1; Num 0]])).
    vm_compute. reflexivity.
Defined.

(** ** FillNulls *)

Lemma fold_left_map_filas {B : Type} (g : B -> fila -> fila) (l : list B) :
  forall rs,
  fold_left (fun rs b => map (g b) rs) l rs =
  map (fun r => fold_left (fun r b => g b r) l r) rs.
Proof.
  induction l as [|b l IH]; intros rs; simpl.
  - symmetry. apply map_id.
  - rewrite IH, map_map. reflexivity.
Qed.

Lemma alterar_fuera (f : cell -> cell) (r : fila) :
  forall j, length r <= j -> alterar f j r = r.
Proof.
  induction r as [|c r IH]; intros [|j]; simpl; intros H; try reflexivity; try lia.
  rewrite IH by lia. reflexivity.
Qed.

Lemma alterar_app (f : cell -> cell) (pre r : fila) :
  alterar f (length pre) (pre ++ r) = (pre ++ alterar f 0 r)%list.
Proof.
  induction pre as [|c pre IH]; simpl.
  - reflexivity.
  - rewrite IH. reflexivity.
Qed.

Lemma fold_alterar_fuera (l : list (nat * dtype)) :
  forall r, (forall jd, In jd l -> length r <= fst jd) ->
  fold_left (fun r jd => alterar (fillna (relleno (snd jd))) (fst jd) r) l r = r.
Proof.
  induction l as [|jd l IH]; intros r H; simpl.
  - reflexivity.
  - rewrite alterar_fuera by (apply H; left; reflexivity).
    apply IH. intros jd' Hin. apply H. right. exact Hin.
Qed.

Lemma fold_alterar_fila (ds : list dtype) :
  forall pre r,
  fold_left (fun r jd => alterar (fillna (relleno (snd jd))) (fst jd) r)
    (combine (seq (length pre) (length ds)) ds) (pre ++ r)
  = (pre ++ rellenar_fila ds r)%list.
Proof.
  induction ds as [|dt ds IH]; intros pre r; simpl.
  - destruct r; reflexivity.
  - rewrite alterar_app. destruct r as [|c r]; simpl.
    + apply fold_alterar_fuera. intros [j dt'] Hin. simpl.
      apply in_combine_l, in_seq in Hin. rewrite app_nil_r. lia.
    + specialize (IH (pre ++ [fillna (relleno dt) c])%list r).
      rewrite length_app, Nat.add_1_r, <- !app_assoc in IH. exact IH.
Qed.

(** The column loop of FillNulls, row by row. *)
Lemma rows_rellenar_nulos (d : DataFrame) :
  rows (rellenar_nulos d) = map (rellenar_fila (map snd (columns d))) (rows d).
Proof.
  unfold rellenar_nulos. simpl.
  rewrite (fold_left_map_filas
             (fun jd => alterar (fillna (relleno (snd jd))) (fst jd))).
  apply map_ext. intros r.
  rewrite <- (length_map snd (columns d)).
  apply (fold_alterar_fila (map snd (columns d)) [] r).
Qed.

Lemma suma_map_add {A : Type} (f g : A -> nat) (l : list A) :
  fold_right Nat.add 0 (map (fun x => f x + g x) l) =
  fold_right Nat.add 0 (map f l) + fold_right Nat.add 0 (map g l).
Proof. induction l as [|x l IH]; simpl; [reflexivity | rewrite IH; lia]. Qed.

Lemma contar_nulos_cons (c : cell) (cs : list cell) :
  contar_nulos (c :: cs) = uno_si_nulo c + contar_nulos cs.
Proof. unfold contar_nulos, uno_si_nulo. simpl. destruct (isnull c); reflexivity. Qed.

Lemma contar_nulos_por_posicion (r : fila) :
  fold_right Nat.add 0
    (map (fun j => uno_si_nulo (nth j r NaN)) (seq 0 (length r)))
  = contar_nulos r.
Proof.
  induction r as [|c r IH].
  - reflexivity.
  - rewrite contar_nulos_cons, <- IH. simpl.
    rewrite <- seq_shift, map_map. reflexivity.
Qed.

(** Counting nulls column by column or cell by cell gives the same number on
    a rectangular frame. *)
Lemma isnull_sum_sum_celdas (d : DataFrame) :
  rectangular d -> isnull_sum_sum d = celdas_nulas d.
Proof.
  unfold rectangular, isnull_sum_sum, isnull_sum, celdas_nulas.
  generalize (length (columns d)) as n. intros n.
  induction (rows d) as [|r rs IH]; intros Hrect; simpl.
  - induction (seq 0 n) as [|j l IHl]; simpl; auto.
  - inversion Hrect as [|? ? Hr Hrs]; subst.
    rewrite <- (IH Hrs), <- contar_nulos_por_posicion, <- suma_map_add.
    f_equal. apply map_ext. intros j. apply contar_nulos_cons.
Qed.

Lemma relleno_no_nulo (dt : dtype) (c : cell) :
  isnull (fillna (relleno dt) c) = false.
Proof. destruct c, dt; reflexivity. Qed.

Lemma rellenar_fila_sin_nulos (ds : list dtype) :
  forall r, length r = length ds -> contar_nulos (rellenar_fila ds r) = 0.
Proof.
  induction ds as [|dt ds IH]; intros [|c r]; simpl; try discriminate; auto.
  intros H. rewrite contar_nulos_cons. unfold uno_si_nulo.
  rewrite relleno_no_nulo, IH by lia. reflexivity.
Qed.

Lemma rellenar_fila_celda (ds : list dtype) :
  forall r j dt c,
  nth_error ds j = Some dt -> nth_error r j = Some c ->
  nth_error (rellenar_fila ds r) j = Some (fillna (relleno dt) c).
Proof.
  induction ds as [|d0 ds IH]; intros [|c0 r] [|j] dt c; simpl; try discriminate.
  - intros [= ->] [= ->]. reflexivity.
  - apply IH.
Qed.

(** C4 — FillNulls on a frame with [k] null cells: the step returns
    normally and reports [afectados = k]; the header and the number of rows
    are kept; a null cell of an [object] column becomes the string ["N/A"], a
    null cell of any other column becomes the number 0, a cell that is not
    null is kept; no null cell is left. *)
Theorem nulos_rellena_todo (st : Estado) (p : Parametros) (k : nat) :
  rectangular (df st) ->
  celdas_nulas (df st) = k ->
  exists st',
    aplicar_limpieza st (mkLimpieza (Some "nulos") p) = Normal st'
    /\ operaciones_realizadas st' =
       (operaciones_realizadas st ++ [mkOperacion (Some "nulos") p (Z.of_nat k)])%list
    /\ columns (df st') = columns (df st)
    /\ len (df st') = len (df st)
    /\ (forall i j r c nombre dt,
          nth_error (rows (df st)) i = Some r ->
          nth_error r j = Some c ->
          nth_error (columns (df st)) j = Some (nombre, dt) ->
          exists r',
            nth_error (rows (df st')) i = Some r'
            /\ nth_error r' j =
               Some (if isnull c
                     then match dt with object => Str "N/A" | _ => Num 0 end
                     else c))
    /\ celdas_nulas (df st') = 0.
Proof.
  intros Hrect Hk.
  exists (registrar st (mkLimpieza (Some "nulos") p) (rellenar_nulos (df st))
            (duplicados_guardados st) (Z.of_nat (isnull_sum_sum (df st)))).
  split; [reflexivity|].
  cbn [registrar df operaciones_realizadas tipo parametros].
  rewrite (isnull_sum_sum_celdas _ Hrect), Hk.
  split; [reflexivity|]. split; [reflexivity|].
  unfold len, celdas_nulas. rewrite rows_rellenar_nulos.
  split; [apply length_map|]. split.
  - intros i j r c nombre dt Hi Hj Hc.
    exists (rellenar_fila (map snd (columns (df st))) r). split.
    + rewrite nth_error_map, Hi. reflexivity.
    + apply rellenar_fila_celda with (dt := dt); [|exact Hj].
      rewrite nth_error_map, Hc. reflexivity.
  - rewrite map_map. unfold rectangular in Hrect.
    induction (rows (df st)) as [|r rs IH]; simpl; [reflexivity|].
    inversion Hrect as [|? ? Hr Hrs]; subst.
    rewrite rellenar_fila_sin_nulos, (IH Hrs); [reflexivity|].
    rewrite length_map. exact Hr.
Qed.

Lemma nulos_rellena_todo_witness :
  exists st',
    aplicar_limpieza (estado_inicial marco_mixto) op_nulos = Normal st'
    /\ operaciones_realizadas st' = [mkOperacion (Some "nulos") sin_parametros 4%Z]
    /\ celdas_nulas (df st') = 0.
Proof.
  destruct (nulos_rellena_todo (estado_inicial marco_mixto) sin_parametros 4)
    as (st' & H1 & H2 & _ & _ & _ & H6).
  - repeat constructor.
  - reflexivity.
  - exists st'. repeat split; assumption.
Defined.

(** ** Errors of RemoveOutliers *)

Lemma filtrar_columna_numerica (u : Q) (d : DataFrame) (c : string) :
  columna_numerica (columns d) c = true ->
  exists d', filtrar_columna u d c = Normal d'.
Proof.
  unfold columna_numerica, filtrar_columna.
  destruct (buscar_columna c (columns d) 0) as [[j dt]|]; [|discriminate].
  intros ->. simpl orb.
  destruct (quantile _ _ (1 # 4)) as [Q1|]; [destruct (quantile _ _ (3 # 4)) as [Q3|]|];
    eexists; reflexivity.
Qed.

Lemma filtrar_outliers_numericas (u : Q) (buenas : list string) :
  forall d, forallb (columna_numerica (columns d)) buenas = true ->
  exists d', filtrar_outliers u buenas d = Normal d'.
Proof.
  induction buenas as [|b buenas IH]; intros d; simpl.
  - intros _. eexists; reflexivity.
  - rewrite andb_true_iff. intros [Hb Hbs].
    destruct (filtrar_columna_numerica u d b Hb) as (d1 & E). rewrite E.
    apply IH. destruct (filtrar_columna_normal _ _ _ _ E) as [-> _]. exact Hbs.
Qed.

Lemma filtrar_columna_invalida (u : Q) (d : DataFrame) (c : string) (e : excepcion) :
  columna_invalida d c e -> filtrar_columna u d c = Lanza e d.
Proof.
  intros H. unfold filtrar_columna.
  inversion H as [E|j E Ht]; rewrite E; [reflexivity|].
  rewrite Ht. reflexivity.
Qed.

(** The converse: the column loop raises at a column only in the two cases
    of [columna_invalida]. *)
Lemma filtrar_columna_lanza (u : Q) (d : DataFrame) (c : string) (e : excepcion)
    (d' : DataFrame) :
  filtrar_columna u d c = Lanza e d' -> columna_invalida d c e /\ d' = d.
Proof.
  unfold filtrar_columna.
  destruct (buscar_columna c (columns d) 0) as [[j dt]|] eqn:E.
  - destruct dt; simpl orb.
    + destruct (existsb es_texto (valores_columna j (rows d))) eqn:Ht; simpl negb; cbv iota.
      * intros H. injection H as <- <-. split; [|reflexivity].
        apply (con_texto d c j); assumption.
      * destruct (quantile _ _ (1 # 4)); [destruct (quantile _ _ (3 # 4))|]; discriminate.
    + destruct (quantile _ _ (1 # 4)); [destruct (quantile _ _ (3 # 4))|]; discriminate.
    + destruct (quantile _ _ (1 # 4)); [destruct (quantile _ _ (3 # 4))|]; discriminate.
  - intros H. injection H as <- <-. split; [|reflexivity]. apply no_existe. exact E.
Qed.

Lemma filtrar_outliers_primera_invalida (u : Q) (buenas resto : list string)
    (c : string) (e : excepcion) (d d' : DataFrame) :
  filtrar_outliers u buenas d = Normal d' ->
  columna_invalida d' c e ->
  filtrar_outliers u (buenas ++ c :: resto) d = Lanza e d'.
Proof.
  intros E Hc.
  rewrite filtrar_outliers_app, E. simpl.
  rewrite (filtrar_columna_invalida u d' c e Hc). reflexivity.
Qed.

(** The operation lists the column [zzz], which does not exist, after the
    text column [nombre]: the run ends with the [TypeError] of [nombre], not
    with a [KeyError].  And a listed text column raises nothing when the
    frame holds no text value in it at its turn: on [marco_sin_edad] the
    column [edad] empties the frame, and [nombre] is then filtered without an
    error. *)
Lemma columna_inexistente_sin_KeyError :
  (buscar_columna "zzz" (columns marco_personas) 0 = None
   /\ exists st,
        aplicar_limpiezas (estado_inicial marco_personas)
          [op_outliers ["nombre"; "zzz"] (3 # 2)]
        = Lanza (TypeError "nombre") st)
  /\ (buscar_columna "nombre" (columns marco_sin_edad) 0 = Some (0, object)
      /\ exists st,
           aplicar_limpiezas (estado_inicial marco_sin_edad)
             [op_outliers ["edad"; "nombre"] (3 # 2)]
           = Normal st
           /\ rows (df st) = []).
Proof.
  split; (split; [reflexivity|]).
  - eexists. vm_compute. reflexivity.
  - eexists. split; vm_compute; reflexivity.
Qed.

(** ** The endpoint *)

Section PropiedadesServicio.

Variable parse : analizador.
Variable tabla_datasets : Z -> option string.
Variable storage : string -> option (list Byte.byte).
Variable get_public_url : string -> string.
Variable id_generado : option Z.

Local Abbreviation servicio :=
  (limpiar_dataset_multiple parse tabla_datasets storage get_public_url id_generado).

(** The endpoint up to the loop, for a request that passes the validation
    and whose dataset is found, downloaded and parsed. *)
Lemma servicio_hasta_el_bucle (req : Peticion) (id : Z) (ruta : string)
    (bs : list Byte.byte) (d : DataFrame) :
  dataset_id req = Some id -> id <> 0%Z -> tipos_limpieza req <> [] ->
  tabla_datasets id = Some ruta ->
  storage ruta = Some bs ->
  fst (cargar_para_limpieza parse bs) = Leido d ->
  servicio req =
  match aplicar_limpiezas (estado_inicial d) (tipos_limpieza req) with
  | Lanza e _ =>
      (R500 (PorOperacion e), [Select "datasets" id; Download ruta])
  | Normal st =>
      let (resp, efectos) := publicar get_public_url id_generado id ruta st in
      (resp, [Select "datasets" id; Download ruta] ++ efectos)
  end.
Proof.
  intros Hid Hnz Hops Htab Hsto Hcsv.
  unfold limpiar_dataset_multiple.
  rewrite Hid. simpl sin_dataset_id. simpl get_or.
  apply Z.eqb_neq in Hnz. rewrite Hnz.
  destruct (tipos_limpieza req) as [|l ls] eqn:E; [contradiction|].
  simpl sin_tipos. simpl orb. cbv iota.
  rewrite Htab, Hsto, Hcsv. reflexivity.
Qed.

(** C10 — A request without [dataset_id], or with an empty list of
    operations, is answered with the validation error (status 400) and no
    call to the catalog or to the storage is made: nothing is fetched, no
    operation runs, nothing is uploaded or inserted. *)
Theorem peticion_incompleta_rechazada (req : Peticion) :
  dataset_id req = None \/ tipos_limpieza req = [] ->
  servicio req =
  (R400 "Debe incluir dataset_id y una lista de tipos_limpieza.", []).
Proof.
  unfold limpiar_dataset_multiple.
  intros [H|H]; rewrite H; simpl.
  - reflexivity.
  - rewrite orb_true_r. reflexivity.
Qed.

(** C8 — A run that returns normally with an empty side-table: the only
    upload is the cleaned frame, the only record inserted is the one of the
    run in [limpiezas_datos] (with no duplicates path), and the response
    carries no duplicates URL. *)
Theorem sin_duplicados_sin_artefacto (req : Peticion) (id : Z) (ruta : string)
    (bs : list Byte.byte) (d : DataFrame) (st : Estado) :
  dataset_id req = Some id -> id <> 0%Z -> tipos_limpieza req <> [] ->
  tabla_datasets id = Some ruta ->
  storage ruta = Some bs ->
  fst (cargar_para_limpieza parse bs) = Leido d ->
  aplicar_limpiezas (estado_inicial d) (tipos_limpieza req) = Normal st ->
  empty (duplicados_guardados st) = true ->
  let ruta_limpio := ("clean/" ++ "clean_multi_" ++ basename ruta)%string in
  servicio req =
  (R200 (operaciones_realizadas st) (total_afectados st)
     (get_public_url ruta_limpio) None id_generado,
   [Select "datasets" id;
    Download ruta;
    Upload ruta_limpio (df st);
    Insert "limpiezas_datos"
      (RegistroLimpieza id "multiple" (operaciones_realizadas st)
         (total_afectados st) ruta_limpio None "Completada")]).
Proof.
  intros Hid Hnz Hops Htab Hsto Hcsv Hrun Hemp ruta_limpio.
  rewrite (servicio_hasta_el_bucle req id ruta bs d Hid Hnz Hops Htab Hsto Hcsv).
  rewrite Hrun. unfold publicar. rewrite Hemp. reflexivity.
Qed.

(** C5 (amended) — A RemoveOutliers operation reached after the operations
    [pre] ran normally, whose listed columns [buenas] are filtered without an
    error and leave the frame [d'], and whose next listed column [c] is, in
    [d'], missing ([KeyError c]) or a text column that still holds a text
    value ([TypeError c]): the loop raises that exception at [c]; the
    columns and the operations after it do not run and the report holds the
    entries of [pre] only; the frame at the raise is [d'], the frame left by
    [pre] filtered by the columns listed before [c]; the endpoint answers
    with the error (status 500) after the two reads, with no upload and no
    insert.  These two cases are the only ones in which a column raises. *)
Theorem outliers_columna_invalida_aborta (req : Peticion) (id : Z) (ruta : string)
    (bs : list Byte.byte) (d : DataFrame) (pre post : list Limpieza)
    (l : Limpieza) (st1 : Estado) (buenas resto : list string) (c : string)
    (e : excepcion) (d' : DataFrame) :
  dataset_id req = Some id -> id <> 0%Z ->
  tabla_datasets id = Some ruta ->
  storage ruta = Some bs ->
  fst (cargar_para_limpieza parse bs) = Leido d ->
  tipos_limpieza req = pre ++ l :: post ->
  aplicar_limpiezas (estado_inicial d) pre = Normal st1 ->
  tipo l = Some "outliers" ->
  columnas (parametros l) = Some (buenas ++ c :: resto) ->
  filtrar_outliers (get_or (umbral (parametros l)) (3 # 2)) buenas (df st1)
  = Normal d' ->
  columna_invalida d' c e ->
  aplicar_limpiezas (estado_inicial d) (tipos_limpieza req)
  = Lanza e (mkEstado d' (duplicados_guardados st1)
               (operaciones_realizadas st1) (total_afectados st1))
  /\ map op_tipo (operaciones_realizadas st1) = map tipo pre
  /\ servicio req
     = (R500 (PorOperacion e), [Select "datasets" id; Download ruta])
  /\ (forall u d1 c1 e1 d2,
        filtrar_columna u d1 c1 = Lanza e1 d2 -> columna_invalida d1 c1 e1).
Proof.
  intros Hid Hnz Htab Hsto Hcsv Hops Hpre Hl Hcols Hd' Hc.
  pose proof (filtrar_outliers_primera_invalida
                (get_or (umbral (parametros l)) (3 # 2)) buenas resto c e
                (df st1) d' Hd' Hc) as Hlanza.
  assert (Hrun : aplicar_limpiezas (estado_inicial d) (tipos_limpieza req)
                 = Lanza e (mkEstado d' (duplicados_guardados st1)
                              (operaciones_realizadas st1) (total_afectados st1))).
  { rewrite Hops, aplicar_limpiezas_app, Hpre. simpl.
    unfold aplicar_limpieza.
    assert (Hnd : es_tipo (tipo l) "duplicados" = false) by (rewrite Hl; reflexivity).
    assert (Hnn : es_tipo (tipo l) "nulos" = false) by (rewrite Hl; reflexivity).
    assert (Ho : es_tipo (tipo l) "outliers" = true) by (rewrite Hl; reflexivity).
    rewrite Hnd, Hnn, Ho, Hcols, get_or_Some, Hlanza. reflexivity. }
  split; [exact Hrun|]. split; [|split].
  - destruct (aplicar_limpiezas_informe _ _ _ Hpre) as (nuevas & Hn & Ht & _).
    simpl in Hn. rewrite Hn. exact Ht.
  - rewrite (servicio_hasta_el_bucle req id ruta bs d Hid Hnz); auto.
    + rewrite Hrun. reflexivity.
    + rewrite Hops. destruct pre; discriminate.
  - intros u d1 c1 e1 d2 H. exact (proj1 (filtrar_columna_lanza u d1 c1 e1 d2 H)).
Qed.

End PropiedadesServicio.

(** ** A concrete service *)

Lemma peticion_incompleta_rechazada_witness :
  servicio_ejemplo marco_personas (mkPeticion None [op_nulos]) =
  (R400 "Debe incluir dataset_id y una lista de tipos_limpieza.", []).
Proof.
  apply (peticion_incompleta_rechazada (parse_fijo marco_personas) tabla_ejemplo
           storage_ejemplo url_ejemplo (Some 1%Z) (mkPeticion None [op_nulos])).
  left. reflexivity.
Defined.

Lemma sin_duplicados_sin_artefacto_witness :
  servicio_ejemplo marco_mixto (mkPeticion (Some 7%Z) [op_duplicados]) =
  (R200 [mkOperacion (Some "duplicados") sin_parametros 0%Z] 0%Z
     "https://storage.example/clean/clean_multi_personas.csv" None (Some 1%Z),
   [Select "datasets" 7%Z;
    Download "datasets/personas.csv";
    Upload "clean/clean_multi_personas.csv" marco_mixto;
    Insert "limpiezas_datos"
      (RegistroLimpieza 7%Z "multiple"
         [mkOperacion (Some "duplicados") sin_parametros 0%Z] 0%Z
         "clean/clean_multi_personas.csv" None "Completada")]).
Proof.
  apply (sin_duplicados_sin_artefacto (parse_fijo marco_mixto) tabla_ejemplo
           storage_ejemplo url_ejemplo (Some 1%Z)
           (mkPeticion (Some 7%Z) [op_duplicados]) 7%Z "datasets/personas.csv"
           [Byte.x78; Byte.x0a] marco_mixto estado_mixto_sin_duplicados).
  - reflexivity.
  - discriminate.
  - discriminate.
  - reflexivity.
  - reflexivity.
  - reflexivity.
  - vm_compute. reflexivity.
  - reflexivity.
Defined.

Lemma outliers_columna_invalida_aborta_witness :
  servicio_ejemplo marco_personas
    (mkPeticion (Some 7%Z)
       [op_duplicados; op_outliers ["edad"; "nombre"; "zzz"] (3 # 2); op_nulos])
  = (R500 (PorOperacion (TypeError "nombre")),
     [Select "datasets" 7%Z; Download "datasets/personas.csv"]).
Proof.
  destruct (outliers_columna_invalida_aborta (parse_fijo marco_personas)
              tabla_ejemplo storage_ejemplo url_ejemplo (Some 1%Z)
              (mkPeticion (Some 7%Z)
                 [op_duplicados; op_outliers ["edad"; "nombre"; "zzz"] (3 # 2);
                  op_nulos])
              7%Z "datasets/personas.csv" [Byte.x78; Byte.x0a] marco_personas
              [op_duplicados] [op_nulos]
              (op_outliers ["edad"; "nombre"; "zzz"] (3 # 2))
              estado_personas_sin_duplicados ["edad"] ["zzz"] "nombre"
              (TypeError "nombre") marco_personas_edad)
    as (_ & _ & H & _).
  - reflexivity.
  - discriminate.
  - reflexivity.
  - reflexivity.
  - reflexivity.
  - reflexivity.
  - vm_compute. reflexivity.
  - reflexivity.
  - reflexivity.
  - vm_compute. reflexivity.
  - apply (con_texto _ _ 0); reflexivity.
  - exact H.
Defined.

(** ** Loading a payload *)

Lemma lineas_no_vacia (bs : list Byte.byte) : lineas bs <> [].
Proof.
  destruct bs as [|b r]; simpl; [discriminate|].
  destruct (es_LF b); [discriminate|]. destruct (lineas r); discriminate.
Qed.

Lemma lineas_cons (b : Byte.byte) (r : list Byte.byte) :
  es_LF b = false ->
  exists l ls, lineas r = l :: ls /\ lineas (b :: r) = (b :: l) :: ls.
Proof.
  intros H. simpl. rewrite H.
  destruct (lineas r) as [|l ls] eqn:E; [destruct (lineas_no_vacia r E)|].
  exists l, ls. split; reflexivity.
Qed.

Lemma es_LF_alto (b : Byte.byte) : (128 <= Byte.to_N b)%N -> es_LF b = false.
Proof. intros H. unfold es_LF. apply N.eqb_neq. lia. Qed.

Lemma es_continuacion_alto (b : N) : es_continuacion b = true -> (128 <= b)%N.
Proof.
  unfold es_continuacion. intros H. apply andb_true_iff in H.
  destruct H as [H _]. apply N.leb_le in H. exact H.
Qed.

Lemma option_map_valida {A B} (f : A -> B) (o : option A) :
  option_map f o <> None <-> o <> None.
Proof. destruct o; simpl; split; intros H; congruence. Qed.

Lemma decode_utf8_lineas_aux (n : nat) :
  forall bs, length bs < n -> decode_utf8 bs <> None ->
  Forall (fun l => decode_utf8 l <> None) (lineas bs).
Proof.
  induction n as [|n IH]; intros bs Hn Hd; [lia|].
  destruct bs as [|c0 r0]; [repeat constructor; discriminate|].
  simpl in Hn.
  destruct (es_LF c0) eqn:ELF.
  - assert (Hlow : (Byte.to_N c0 <? 128)%N = true).
    { unfold es_LF in ELF. apply N.eqb_eq in ELF. apply N.ltb_lt. lia. }
    simpl. rewrite ELF. simpl in Hd. rewrite Hlow in Hd.
    apply option_map_valida in Hd.
    constructor; [discriminate|]. apply IH; [lia|exact Hd].
  - destruct (lineas_cons c0 r0 ELF) as (l & ls & Er & Ebs). rewrite Ebs.
    simpl in Hd.
    destruct (Byte.to_N c0 <? 128)%N eqn:E0.
    { apply option_map_valida in Hd.
      pose proof (IH r0 ltac:(lia) Hd) as H. rewrite Er in H.
      inversion H as [|? ? Hl Hls]; subst. constructor; [|exact Hls].
      simpl. rewrite E0. apply option_map_valida. exact Hl. }
    destruct ((192 <=? Byte.to_N c0) && (Byte.to_N c0 <? 224))%N eqn:E1.
    { destruct r0 as [|c1 r1]; [congruence|].
      destruct (es_continuacion (Byte.to_N c1)
                && punto_valido 128 ((Byte.to_N c0 - 192) * 64 + (Byte.to_N c1 - 128))) eqn:Ec;
        [|congruence].
      apply option_map_valida in Hd.
      pose proof Ec as Ec'. apply andb_true_iff in Ec'. destruct Ec' as [Hc1 _].
      apply es_continuacion_alto, es_LF_alto in Hc1.
      destruct (lineas_cons c1 r1 Hc1) as (l1 & ls1 & Er1 & Ebs1).
      rewrite Ebs1 in Er. injection Er as <- <-.
      simpl in Hn.
      pose proof (IH r1 ltac:(lia) Hd) as H. rewrite Er1 in H.
      inversion H as [|? ? Hl Hls]; subst. constructor; [|exact Hls].
      simpl. rewrite E0, E1, Ec. apply option_map_valida. exact Hl. }
    destruct ((224 <=? Byte.to_N c0) && (Byte.to_N c0 <? 240))%N eqn:E2.
    { destruct r0 as [|c1 [|c2 r2]]; [congruence|congruence|].
      destruct (es_continuacion (Byte.to_N c1) && es_continuacion (Byte.to_N c2)
                && punto_valido 2048
                     ((Byte.to_N c0 - 224) * 4096 + (Byte.to_N c1 - 128) * 64
                      + (Byte.to_N c2 - 128))) eqn:Ec; [|congruence].
      apply option_map_valida in Hd.
      pose proof Ec as Ec'. apply andb_true_iff in Ec'. destruct Ec' as [Ec' _].
      apply andb_true_iff in Ec'. destruct Ec' as [Hc1 Hc2].
      apply es_continuacion_alto, es_LF_alto in Hc1.
      apply es_continuacion_alto, es_LF_alto in Hc2.
      destruct (lineas_cons c2 r2 Hc2) as (l2 & ls2 & Er2 & Ebs2).
      destruct (lineas_cons c1 (c2 :: r2) Hc1) as (l1 & ls1 & Er1 & Ebs1).
      rewrite Ebs2 in Er1. injection Er1 as <- <-.
      rewrite Ebs1 in Er. injection Er as <- <-.
      simpl in Hn.
      pose proof (IH r2 ltac:(lia) Hd) as H. rewrite Er2 in H.
      inversion H as [|? ? Hl Hls]; subst. constructor; [|exact Hls].
      simpl. rewrite E0, E1, E2, Ec. apply option_map_valida. exact Hl. }
    destruct ((240 <=? Byte.to_N c0) && (Byte.to_N c0 <? 248))%N eqn:E3; [|congruence].
    destruct r0 as [|c1 [|c2 [|c3 r3]]]; [congruence|congruence|congruence|].
    destruct (es_continuacion (Byte.to_N c1) && es_continuacion (Byte.to_N c2)
              && es_continuacion (Byte.to_N c3)
              && punto_valido 65536
                   ((Byte.to_N c0 - 240) * 262144 + (Byte.to_N c1 - 128) * 4096
                    + (Byte.to_N c2 - 128) * 64 + (Byte.to_N c3 - 128))) eqn:Ec;
      [|congruence].
    apply option_map_valida in Hd.
    pose proof Ec as Ec'. apply andb_true_iff in Ec'. destruct Ec' as [Ec' _].
    apply andb_true_iff in Ec'. destruct Ec' as [Ec' Hc3].
    apply andb_true_iff in Ec'. destruct Ec' as [Hc1 Hc2].
    apply es_continuacion_alto, es_LF_alto in Hc1.
    apply es_continuacion_alto, es_LF_alto in Hc2.
    apply es_continuacion_alto, es_LF_alto in Hc3.
    destruct (lineas_cons c3 r3 Hc3) as (l3 & ls3 & Er3 & Ebs3).
    destruct (lineas_cons c2 (c3 :: r3) Hc2) as (l2 & ls2 & Er2 & Ebs2).
    destruct (lineas_cons c1 (c2 :: c3 :: r3) Hc1) as (l1 & ls1 & Er1 & Ebs1).
    rewrite Ebs3 in Er2. injection Er2 as <- <-.
    rewrite Ebs2 in Er1. injection Er1 as <- <-.
    rewrite Ebs1 in Er. injection Er as <- <-.
    simpl in Hn.
    pose proof (IH r3 ltac:(lia) Hd) as H. rewrite Er3 in H.
    inversion H as [|? ? Hl Hls]; subst. constructor; [|exact Hls].
    simpl. rewrite E0, E1, E2, E3, Ec. apply option_map_valida. exact Hl.
Qed.

Lemma decode_utf8_lineas (bs : list Byte.byte) :
  decode_utf8 bs <> None -> Forall (fun l => decode_utf8 l <> None) (lineas bs).
Proof. apply (decode_utf8_lineas_aux (S (length bs))). lia. Qed.

Lemma seleccionar_incl {A : Type} (mask : list bool) :
  forall xs : list A, incl (seleccionar mask xs) xs.
Proof.
  induction mask as [|m mask IH]; intros [|x xs]; simpl;
    try (intros a []).
  destruct m.
  - intros a [<-|H]; [left; reflexivity|right; apply IH; exact H].
  - intros a H. right. apply IH. exact H.
Qed.

Lemma decodificar_lineas_utf8 (ls : list (list Byte.byte)) :
  decodificar_lineas utf_8 ls = None <-> forallb utf8_valida ls = false.
Proof.
  induction ls as [|l ls IH]; simpl; [split; discriminate|].
  unfold utf8_valida at 1.
  destruct (decode_utf8 l) as [t|]; simpl; [|split; reflexivity].
  destruct (decodificar_lineas utf_8 ls) as [ts|].
  - split; [discriminate|]. intros H. apply IH in H. discriminate.
  - split; [|reflexivity]. intros _. apply IH. reflexivity.
Qed.

Lemma decodificar_lineas_latin1 (ls : list (list Byte.byte)) :
  decodificar_lineas latin_1 ls = Some (map decode_latin1 ls).
Proof.
  induction ls as [|l ls IH]; simpl; [reflexivity|]. rewrite IH. reflexivity.
Qed.

Lemma leer_csv (p : analizador) (enc : codificacion) (bs : list Byte.byte) :
  leer p read_csv enc bs =
  match decodificar_lineas enc (lineas_leidas p bs) with
  | None => Falla UnicodeDecodeError
  | Some ts =>
      match construir p bs ts with
      | Some d => Leido d
      | None => Falla ParserError
      end
  end.
Proof.
  unfold leer, lineas_leidas, construir.
  destruct (analizar_csv p (lineas bs)). reflexivity.
Qed.

Lemma leer_csv_utf8_falla (p : analizador) (bs : list Byte.byte) :
  leer p read_csv utf_8 bs = Falla UnicodeDecodeError
  <-> forallb utf8_valida (lineas_leidas p bs) = false.
Proof.
  rewrite leer_csv, <- decodificar_lineas_utf8.
  destruct (decodificar_lineas utf_8 (lineas_leidas p bs)) as [ts|].
  - destruct (construir p bs ts); split; discriminate.
  - split; reflexivity.
Qed.

Lemma leer_latin1_decodifica (p : analizador) (l : lector) (bs : list Byte.byte) :
  leer p l latin_1 bs <> Falla UnicodeDecodeError.
Proof.
  destruct l.
  - rewrite leer_csv, decodificar_lineas_latin1.
    destruct (construir p bs _); discriminate.
  - unfold leer. simpl. destruct (analizar_json p _); discriminate.
Qed.

(** A payload that is valid UTF-8 has no line that is not. *)
Lemma lineas_leidas_validas (p : analizador) (bs : list Byte.byte) :
  decode_utf8 bs <> None -> forallb utf8_valida (lineas_leidas p bs) = true.
Proof.
  intros H. apply forallb_forall. intros l Hl.
  apply seleccionar_incl in Hl.
  pose proof (decode_utf8_lineas bs H) as Hf.
  rewrite Forall_forall in Hf. specialize (Hf l Hl).
  unfold utf8_valida. destruct (decode_utf8 l); [reflexivity|contradiction].
Qed.

Lemma leer_con_respaldo_csv (p : analizador) (bs : list Byte.byte) :
  leer_con_respaldo p read_csv bs =
  if forallb utf8_valida (lineas_leidas p bs)
  then (leer p read_csv utf_8 bs, [(read_csv, utf_8)])
  else (leer p read_csv latin_1 bs, [(read_csv, utf_8); (read_csv, latin_1)]).
Proof.
  unfold leer_con_respaldo.
  destruct (forallb utf8_valida (lineas_leidas p bs)) eqn:V.
  - destruct (leer p read_csv utf_8 bs) as [d|[|]] eqn:E; try reflexivity.
    apply leer_csv_utf8_falla in E. congruence.
  - apply leer_csv_utf8_falla in V. rewrite V. reflexivity.
Qed.

(** C9 (amended) — Reading a payload as CSV, in the reading block of the
    upload endpoint (file name ending in [.csv], with the parser [parse] of
    that endpoint) and in the cleaning endpoint (whatever the dataset, with
    its parser [parse_skip], which leaves malformed lines out): the first
    attempt is [read_csv] with UTF-8; a second and last attempt, with
    Latin-1, is made exactly when the first one raises a decoding error,
    that is, exactly when one of the lines the parser decodes is not valid
    UTF-8; otherwise the outcome of the first attempt is the outcome, a
    parser error included.  Bytes on a line that the parser skips or does not
    reach are not decoded; a payload that is valid UTF-8 as a whole never
    leads to a second attempt; a Latin-1 read never raises a decoding error.
    The reading block of the upload endpoint answers "unsupported format",
    with no attempt, for a file name that ends neither in [.csv] nor in
    [.json]; the endpoint then answers 400 with no call, provided the
    uploaded file could be saved, and 500 otherwise.  A CSV load fails when
    parsing fails on the text of both decodings. *)
Theorem lectura_csv_con_respaldo (parse parse_skip : analizador)
    (bs : list Byte.byte) :
  cargar_para_limpieza parse_skip bs =
    (if forallb utf8_valida (lineas_leidas parse_skip bs)
     then (leer parse_skip read_csv utf_8 bs, [(read_csv, utf_8)])
     else (leer parse_skip read_csv latin_1 bs,
           [(read_csv, utf_8); (read_csv, latin_1)]))
  /\ (forall filename, endswith filename ".csv" = true ->
        cargar_archivo parse filename bs =
        (if forallb utf8_valida (lineas_leidas parse bs)
         then (carga_de (leer parse read_csv utf_8 bs), [(read_csv, utf_8)])
         else (carga_de (leer parse read_csv latin_1 bs),
               [(read_csv, utf_8); (read_csv, latin_1)])))
  /\ (forall p,
        leer p read_csv utf_8 bs = Falla UnicodeDecodeError
        <-> forallb utf8_valida (lineas_leidas p bs) = false)
  /\ (forall p l, leer p l latin_1 bs <> Falla UnicodeDecodeError)
  /\ (decode_utf8 bs <> None ->
      forall p, forallb utf8_valida (lineas_leidas p bs) = true)
  /\ (forall filename,
        endswith filename ".csv" = false -> endswith filename ".json" = false ->
        cargar_archivo parse filename bs = (FormatoNoSoportado, [])
        /\ forall open_wb upload insert ahora,
             create_dataset parse open_wb upload insert ahora
               (ConArchivo filename bs)
             = (if file_save open_wb (path_join "temp" filename)
                then Http 400
                       [("message", JStr "Formato no soportado. Solo CSV o JSON.")]
                else Http500,
                []))
  /\ (forall p,
        (forall ts, decodificar_lineas utf_8 (lineas_leidas p bs) = Some ts ->
                    construir p bs ts = None) ->
        construir p bs (map decode_latin1 (lineas_leidas p bs)) = None ->
        (exists e, fst (cargar_para_limpieza p bs) = Falla e)
        /\ (forall filename, endswith filename ".csv" = true ->
              exists e, fst (cargar_archivo p filename bs) = ErrorDeLectura e)).
Proof.
  split; [apply leer_con_respaldo_csv|].
  split.
  { intros filename Hcsv. unfold cargar_archivo.
    rewrite Hcsv, leer_con_respaldo_csv.
    destruct (forallb utf8_valida (lineas_leidas parse bs)); reflexivity. }
  split; [intros p; apply leer_csv_utf8_falla|].
  split; [intros p l; apply leer_latin1_decodifica|].
  split; [intros H p; apply lineas_leidas_validas; exact H|].
  split.
  { intros filename Hcsv Hjson.
    assert (H : cargar_archivo parse filename bs = (FormatoNoSoportado, [])).
    { unfold cargar_archivo. rewrite Hcsv, Hjson. reflexivity. }
    split; [exact H|]. intros open_wb upload insert ahora.
    unfold create_dataset. cbv zeta. rewrite H.
    destruct (file_save open_wb (path_join "temp" filename)); reflexivity. }
  intros p Hutf Hlat.
  assert (H : exists e, fst (leer_con_respaldo p read_csv bs) = Falla e).
  { rewrite leer_con_respaldo_csv.
    destruct (forallb utf8_valida (lineas_leidas p bs)) eqn:V; cbn [fst].
    - rewrite leer_csv.
      destruct (decodificar_lineas utf_8 (lineas_leidas p bs)) as [ts|] eqn:D.
      + rewrite (Hutf ts eq_refl). eexists; reflexivity.
      + eexists; reflexivity.
    - rewrite leer_csv, decodificar_lineas_latin1, Hlat. eexists; reflexivity. }
  destruct H as (e & He). split.
  - exists e. exact He.
  - intros filename Hcsv. exists e. unfold cargar_archivo. rewrite Hcsv.
    destruct (leer_con_respaldo p read_csv bs) as [r log]. simpl in *.
    rewrite He. reflexivity.
Qed.

Lemma lectura_csv_con_respaldo_witness :
  cargar_archivo parse_e_aguda "datos.csv" [Byte.xe9] =
    (Cargado marco_e, [(read_csv, utf_8); (read_csv, latin_1)])
  /\ cargar_para_limpieza (parse_sin_segunda marco_x)
       [Byte.x78; Byte.x0a; Byte.xe9; Byte.x0a; Byte.x31; Byte.x0a]
     = (Leido marco_x, [(read_csv, utf_8)])
  /\ cargar_archivo parse_e_aguda "datos.xlsx" [Byte.xe9] = (FormatoNoSoportado, [])
  /\ exists e, fst (cargar_para_limpieza parse_e_aguda [Byte.x41]) = Falla e.
Proof.
  destruct (lectura_csv_con_respaldo parse_e_aguda (parse_sin_segunda marco_x)
              [Byte.xe9])
    as (_ & H2 & _ & _ & _ & H6 & _).
  destruct (lectura_csv_con_respaldo parse_e_aguda (parse_sin_segunda marco_x)
              [Byte.x78; Byte.x0a; Byte.xe9; Byte.x0a; Byte.x31; Byte.x0a])
    as (H1 & _).
  destruct (lectura_csv_con_respaldo parse_e_aguda parse_e_aguda [Byte.x41])
    as (_ & _ & _ & _ & _ & _ & H7).
  split; [|split; [|split]].
  - rewrite (H2 "datos.csv" eq_refl). reflexivity.
  - rewrite H1. reflexivity.
  - apply (H6 "datos.xlsx"); reflexivity.
  - apply (H7 parse_e_aguda).
    + intros ts Hts. vm_compute in Hts. injection Hts as <-. reflexivity.
    + reflexivity.
Defined.

(** The payload is the single byte E9, not valid UTF-8, in a file named
    [.json]: the only attempt is [read_json] with UTF-8 and the load fails
    at decoding, while a read with Latin-1 gives a frame. *)
Lemma json_sin_respaldo :
  cargar_archivo parse_e_aguda "datos.json" [Byte.xe9] =
    (ErrorDeLectura UnicodeDecodeError, [(read_json, utf_8)])
  /\ leer parse_e_aguda read_json utf_8 [Byte.xe9] = Falla UnicodeDecodeError
  /\ leer parse_e_aguda read_json latin_1 [Byte.xe9] = Leido marco_e.
Proof. repeat split; vm_compute; reflexivity. Qed.

(** * Further properties of the cleaning loop *)

(** ** Invariants of the loop *)

Lemma aplicar_limpiezas_invariante (P : Estado -> Prop) :
  (forall st l, P st -> P (locales_de (aplicar_limpieza st l))) ->
  forall ls st, P st -> P (locales_de (aplicar_limpiezas st ls)).
Proof.
  intros Hpaso. induction ls as [|l ls IH]; intros st Hst; simpl.
  - exact Hst.
  - specialize (Hpaso st l Hst).
    destruct (aplicar_limpieza st l) as [st1|e st1]; simpl in *.
    + apply IH. exact Hpaso.
    + exact Hpaso.
Qed.

Lemma suma_afectados_app (ops : list Operacion) (o : Operacion) :
  suma_afectados (ops ++ [o]) = (suma_afectados ops + afectados o)%Z.
Proof.
  unfold suma_afectados. induction ops as [|o' ops IH]; simpl.
  - lia.
  - rewrite IH. lia.
Qed.

(** The three branches of the loop body, as equations. *)
Lemma aplicar_limpieza_casos (st : Estado) (l : Limpieza) :
  (tipo l = Some "duplicados" /\
   aplicar_limpieza st l =
   Normal (registrar st l (drop_duplicates (df st))
             (getitem_mask (df st) (duplicated (df st)))
             (Z.of_nat (len (df st)) - Z.of_nat (len (drop_duplicates (df st))))%Z))
  \/ (tipo l = Some "nulos" /\
      aplicar_limpieza st l =
      Normal (registrar st l (rellenar_nulos (df st)) (duplicados_guardados st)
                (Z.of_nat (isnull_sum_sum (df st)))))
  \/ (tipo l = Some "outliers" /\
      aplicar_limpieza st l =
      match filtrar_outliers (get_or (umbral (parametros l)) (3 # 2))
              (get_or (columnas (parametros l)) (columnas_numericas (df st)))
              (df st) with
      | Normal d' =>
          Normal (registrar st l d' (duplicados_guardados st)
                    (Z.of_nat (len (df st)) - Z.of_nat (len d'))%Z)
      | Lanza e d' =>
          Lanza e (mkEstado d' (duplicados_guardados st)
                     (operaciones_realizadas st) (total_afectados st))
      end)
  \/ (aplicar_limpieza st l =
      Normal (registrar st l (df st) (duplicados_guardados st) 0%Z)).
Proof.
  unfold aplicar_limpieza.
  destruct (es_tipo (tipo l) "duplicados") eqn:Ed.
  { left. apply es_tipo_true in Ed. auto. }
  destruct (es_tipo (tipo l) "nulos") eqn:En.
  { right; left. apply es_tipo_true in En. auto. }
  destruct (es_tipo (tipo l) "outliers") eqn:Eo.
  { right; right; left. apply es_tipo_true in Eo. auto. }
  right; right; right. reflexivity.
Qed.

Lemma filtrar_columna_resultado (u : Q) (d : DataFrame) (c : string) :
  columns (locales_de (filtrar_columna u d c)) = columns d
  /\ incl (rows (locales_de (filtrar_columna u d c))) (rows d)
  /\ len (locales_de (filtrar_columna u d c)) <= len d.
Proof.
  unfold filtrar_columna, len.
  destruct (buscar_columna c (columns d) 0) as [[j dt]|]; simpl;
    [|auto using incl_refl].
  destruct (es_numerico dt || _); simpl; [|auto using incl_refl].
  destruct (quantile _ _ (1 # 4)) as [Q1|]; [destruct (quantile _ _ (3 # 4)) as [Q3|]|];
    simpl; auto using mask_rows_incl, mask_rows_length_le.
Qed.

Lemma filtrar_outliers_resultado (u : Q) (cols : list string) :
  forall d,
  columns (locales_de (filtrar_outliers u cols d)) = columns d
  /\ incl (rows (locales_de (filtrar_outliers u cols d))) (rows d)
  /\ len (locales_de (filtrar_outliers u cols d)) <= len d.
Proof.
  induction cols as [|c cols IH]; intros d; simpl.
  - auto using incl_refl.
  - destruct (filtrar_columna_resultado u d c) as (Hc & Hr & Hl).
    destruct (filtrar_columna u d c) as [d1|e d1]; simpl in *.
    + destruct (IH d1) as (Hc' & Hr' & Hl'). repeat split.
      * congruence.
      * eapply incl_tran; eassumption.
      * lia.
    + auto.
Qed.

Lemma len_rellenar_nulos (d : DataFrame) : len (rellenar_nulos d) = len d.
Proof. unfold len. rewrite rows_rellenar_nulos. apply length_map. Qed.

Lemma len_drop_duplicates (d : DataFrame) : len (drop_duplicates d) <= len d.
Proof. apply mask_rows_length_le. Qed.

(** X1 — Whatever the operations and however the loop ends, the running
    total is the sum of the [afectados] of the report entries. *)
Theorem total_es_la_suma (d : DataFrame) (ls : list Limpieza) :
  total_afectados (locales_de (aplicar_limpiezas (estado_inicial d) ls))
  = suma_afectados
      (operaciones_realizadas (locales_de (aplicar_limpiezas (estado_inicial d) ls))).
Proof.
  apply (aplicar_limpiezas_invariante
           (fun st => total_afectados st = suma_afectados (operaciones_realizadas st))).
  - intros st l Hst.
    destruct (aplicar_limpieza_casos st l) as [[_ E]|[[_ E]|[[_ E]|E]]];
      rewrite E; clear E;
      try (destruct (filtrar_outliers _ _ _)); simpl;
      try rewrite suma_afectados_app; simpl; rewrite ?Hst; reflexivity.
  - reflexivity.
Qed.

(** X2 — No report entry has a negative [afectados], and the frame never
    has more rows than the frame that was loaded, whatever the operations and
    however the loop ends. *)
Theorem afectados_no_negativos (d : DataFrame) (ls : list Limpieza) :
  Forall (fun o => (0 <= afectados o)%Z)
    (operaciones_realizadas (locales_de (aplicar_limpiezas (estado_inicial d) ls)))
  /\ len (df (locales_de (aplicar_limpiezas (estado_inicial d) ls))) <= len d.
Proof.
  apply (aplicar_limpiezas_invariante
           (fun st => Forall (fun o => (0 <= afectados o)%Z) (operaciones_realizadas st)
                      /\ len (df st) <= len d)).
  - intros st l [Hops Hlen].
    destruct (aplicar_limpieza_casos st l) as [[_ E]|[[_ E]|[[_ E]|E]]];
      rewrite E; clear E.
    + pose proof (len_drop_duplicates (df st)). simpl. split; [|lia].
      apply Forall_app. split; [exact Hops|]. repeat constructor. simpl. lia.
    + simpl. rewrite len_rellenar_nulos. split; [|lia].
      apply Forall_app. split; [exact Hops|]. repeat constructor. simpl. lia.
    + destruct (filtrar_outliers_resultado
                  (get_or (umbral (parametros l)) (3 # 2))
                  (get_or (columnas (parametros l)) (columnas_numericas (df st)))
                  (df st)) as (_ & _ & Hl).
      destruct (filtrar_outliers _ _ _) as [d'|e d']; simpl in *.
      * split; [|lia].
        apply Forall_app. split; [exact Hops|]. repeat constructor. simpl. lia.
      * split; [exact Hops | lia].
    + simpl. split; [|lia].
      apply Forall_app. split; [exact Hops|]. repeat constructor. simpl. lia.
  - simpl. split; [constructor | lia].
Qed.

Lemma rellenar_fila_length (ds : list dtype) :
  forall r, length (rellenar_fila ds r) = length r.
Proof.
  induction ds as [|dt ds IH]; intros [|c r]; simpl; auto.
Qed.

Lemma rectangular_incl (cs : list (string * dtype)) (rs rs' : list fila) :
  incl rs' rs ->
  Forall (fun r => length r = length cs) rs ->
  Forall (fun r => length r = length cs) rs'.
Proof.
  intros Hin H. rewrite Forall_forall in *. intros r Hr. apply H, Hin, Hr.
Qed.

Lemma rectangular_rellenar_nulos (d : DataFrame) :
  rectangular d -> rectangular (rellenar_nulos d).
Proof.
  unfold rectangular. rewrite rows_rellenar_nulos.
  change (columns (rellenar_nulos d)) with (columns d).
  intros H. rewrite Forall_map. rewrite Forall_forall in *.
  intros r Hr. rewrite rellenar_fila_length. apply H, Hr.
Qed.

(** X3 — The header of the frame is never changed by the loop, and a frame
    that has one cell per column in every row keeps that shape, whatever the
    operations and however the loop ends. *)
Theorem operaciones_conservan_forma (st : Estado) (ls : list Limpieza) :
  rectangular (df st) ->
  columns (df (locales_de (aplicar_limpiezas st ls))) = columns (df st)
  /\ rectangular (df (locales_de (aplicar_limpiezas st ls))).
Proof.
  intros Hrect.
  apply (aplicar_limpiezas_invariante
           (fun s => columns (df s) = columns (df st) /\ rectangular (df s)));
    [|split; [reflexivity | exact Hrect]].
  intros s l [Hc Hr].
  destruct (aplicar_limpieza_casos s l) as [[_ E]|[[_ E]|[[_ E]|E]]];
    rewrite E; clear E.
  - simpl. split; [exact Hc|]. unfold rectangular in *. simpl.
    eapply rectangular_incl; [apply mask_rows_incl | exact Hr].
  - simpl. split; [exact Hc | apply rectangular_rellenar_nulos, Hr].
  - destruct (filtrar_outliers_resultado
                (get_or (umbral (parametros l)) (3 # 2))
                (get_or (columnas (parametros l)) (columnas_numericas (df s)))
                (df s)) as (Hc' & Hi & _).
    destruct (filtrar_outliers _ _ _) as [d'|e d']; simpl in *;
      (split; [congruence|]); unfold rectangular in *; rewrite Hc';
      eapply rectangular_incl; eassumption.
  - simpl. split; assumption.
Qed.

Lemma operaciones_conservan_forma_witness :
  columns (df (locales_de
     (aplicar_limpiezas (estado_inicial marco_personas)
        [op_duplicados; op_outliers ["edad"; "zzz"] (3 # 2); op_nulos])))
  = [("nombre", object); ("edad", float64)]
  /\ rectangular (df (locales_de
       (aplicar_limpiezas (estado_inicial marco_personas)
          [op_duplicados; op_outliers ["edad"; "zzz"] (3 # 2); op_nulos]))).
Proof.
  apply (operaciones_conservan_forma (estado_inicial marco_personas)
           [op_duplicados; op_outliers ["edad"; "zzz"] (3 # 2); op_nulos]).
  repeat constructor.
Defined.

(** ** Deduplicate *)

Lemma mask_rows_particion (m : list bool) :
  forall rs, length m = length rs ->
  length (mask_rows m rs) + length (mask_rows (map negb m) rs) = length rs.
Proof.
  induction m as [|b m IH]; intros [|r rs]; simpl; try discriminate; auto.
  intros H. specialize (IH rs). destruct b; simpl; lia.
Qed.

(** X4 — A Deduplicate step splits the frame in two: the rows of the
    side-table and the rows that remain add up to the rows it received, and
    the [afectados] it reports is the number of rows of the side-table. *)
Theorem duplicados_reparte_las_filas (st : Estado) (p : Parametros) :
  exists st',
    aplicar_limpieza st (mkLimpieza (Some "duplicados") p) = Normal st'
    /\ len (duplicados_guardados st') + len (df st') = len (df st)
    /\ operaciones_realizadas st' =
       operaciones_realizadas st ++
       [mkOperacion (Some "duplicados") p (Z.of_nat (len (duplicados_guardados st')))].
Proof.
  eexists. split; [reflexivity|].
  cbn [registrar df duplicados_guardados operaciones_realizadas tipo parametros].
  assert (H : len (getitem_mask (df st) (duplicated (df st)))
              + len (drop_duplicates (df st)) = len (df st)).
  { unfold len, drop_duplicates, getitem_mask. simpl.
    apply mask_rows_particion. apply duplicated_aux_length. }
  split; [exact H|].
  do 3 f_equal. lia.
Qed.

Lemma cell_eqb_refl (c : cell) : cell_eqb c c = true.
Proof.
  destruct c; simpl; auto using Qeq_bool_refl, String.eqb_refl.
Qed.

Lemma cell_eqb_trans (a b c : cell) :
  cell_eqb a b = true -> cell_eqb b c = true -> cell_eqb a c = true.
Proof.
  destruct a, b, c; simpl; try discriminate; auto.
  - apply Qeq_bool_trans.
  - rewrite !String.eqb_eq. congruence.
Qed.

Lemma fila_eqb_refl (r : fila) : fila_eqb r r = true.
Proof.
  induction r as [|c r IH]; simpl; [reflexivity|].
  rewrite cell_eqb_refl, IH. reflexivity.
Qed.

Lemma fila_eqb_trans (r1 : fila) :
  forall r2 r3,
  fila_eqb r1 r2 = true -> fila_eqb r2 r3 = true -> fila_eqb r1 r3 = true.
Proof.
  induction r1 as [|a r1 IH]; intros [|b r2] [|c r3]; simpl; try discriminate; auto.
  rewrite !andb_true_iff. intros [H1 H2] [H3 H4]. split.
  - eapply cell_eqb_trans; eassumption.
  - eapply IH; eassumption.
Qed.

Lemma existsb_fila_eqb_trans (r r0 : fila) (v : list fila) :
  fila_eqb r r0 = true ->
  existsb (fila_eqb r0) v = true -> existsb (fila_eqb r) v = true.
Proof.
  intros H. rewrite !existsb_exists. intros (x & Hx & Hx').
  exists x. split; [exact Hx|]. eapply fila_eqb_trans; eassumption.
Qed.

Lemma conservadas_representante (rs : list fila) :
  forall v r, In r rs ->
  existsb (fila_eqb r) v = true
  \/ existsb (fila_eqb r) (conservadas v rs) = true.
Proof.
  induction rs as [|r0 rs IH]; intros v r Hin; [destruct Hin|].
  rewrite conservadas_cons.
  destruct Hin as [<-|Hin].
  - destruct (existsb (fila_eqb r0) v) eqn:E; [left; reflexivity|].
    right. simpl. rewrite fila_eqb_refl. reflexivity.
  - destruct (IH (r0 :: v) r Hin) as [H|H].
    + simpl in H. apply orb_true_iff in H. destruct H as [H|H]; [|left; exact H].
      destruct (existsb (fila_eqb r0) v) eqn:E.
      * left. eapply existsb_fila_eqb_trans; eassumption.
      * right. simpl. rewrite H. reflexivity.
    + right. destruct (existsb (fila_eqb r0) v); [exact H|].
      simpl. rewrite H. apply orb_true_r.
Qed.

(** X5 — Deduplicate loses no value: every row of the frame is equal (cell
    by cell, nulls equal to nulls) to a row that [drop_duplicates] keeps, and
    the rows kept are rows of the frame. *)
Theorem drop_duplicates_conserva_representante (d : DataFrame) (r : fila) :
  In r (rows d) ->
  existsb (fila_eqb r) (rows (drop_duplicates d)) = true
  /\ incl (rows (drop_duplicates d)) (rows d).
Proof.
  intros Hin. split.
  - destruct (conservadas_representante (rows d) [] r Hin) as [H|H].
    + discriminate.
    + exact H.
  - apply mask_rows_incl.
Qed.

Lemma drop_duplicates_conserva_representante_witness :
  existsb (fila_eqb [Str "ana"; Num (60 # 2)]) (rows (drop_duplicates marco_personas))
  = true
  /\ incl (rows (drop_duplicates marco_personas)) (rows marco_personas).
Proof.
  destruct (drop_duplicates_conserva_representante marco_personas
              [Str "ana"; Num 30]) as [H1 H2].
  - simpl. auto.
  - split; [|exact H2]. vm_compute. reflexivity.
Defined.

(** ** RemoveOutliers *)

Lemma mask_rows_map (f : fila -> bool) (rs : list fila) :
  mask_rows (map f rs) rs = filter f rs.
Proof.
  induction rs as [|r rs IH]; simpl; [reflexivity|].
  rewrite IH. reflexivity.
Qed.



Lemma filtrar_columna_deja_numeros (u : Q) (d d1 : DataFrame) (col : string)
    (j : nat) (dt : dtype) :
  buscar_columna col (columns d) 0 = Some (j, dt) ->
  filtrar_columna u d col = Normal d1 ->
  forall r, In r (rows d1) -> exists v, nth j r NaN = Num v.
Proof.
  intros Hb. unfold filtrar_columna. rewrite Hb.
  destruct (es_numerico dt || _); [|discriminate].
  unfold getitem_mask, valores_columna.
  destruct (quantile _ _ (1 # 4)) as [Q1|]; [destruct (quantile _ _ (3 # 4)) as [Q3|]|];
    intros H; injection H as <-; intros r; simpl;
    rewrite map_map, mask_rows_map, filter_In; intros [_ Hd]; try discriminate.
  destruct (nth j r NaN) as [|v|s]; try discriminate. exists v. reflexivity.
Qed.

(** X7 — After a RemoveOutliers operation that returns normally, no row
    has a null (or a text) in a listed column: the cell of every remaining
    row in every listed column is a number.  Rows with a missing value in a
    listed column are removed along with the outliers. *)
Theorem outliers_elimina_nulos (u : Q) (cols : list string) (d d' : DataFrame)
    (col : string) (j : nat) (dt : dtype) :
  filtrar_outliers u cols d = Normal d' ->
  In col cols ->
  buscar_columna col (columns d) 0 = Some (j, dt) ->
  forall r, In r (rows d') -> exists v, nth j r NaN = Num v.
Proof.
  revert d. induction cols as [|c cols IH]; intros d Hrun Hin Hb; [destruct Hin|].
  simpl in Hrun.
  destruct (filtrar_columna u d c) as [d1|e d1] eqn:E; [|discriminate].
  destruct (filtrar_columna_normal _ _ _ _ E) as [Hc _].
  destruct (in_dec string_dec col cols) as [Hin'|Hnin].
  - apply (IH d1 Hrun Hin'). rewrite Hc. exact Hb.
  - destruct Hin as [->|Hin]; [|contradiction].
    intros r Hr.
    apply (filtrar_columna_deja_numeros u d d1 col j dt Hb E).
    apply (proj2 (filtrar_outliers_normal _ _ _ _ Hrun)). exact Hr.
Qed.

Lemma outliers_elimina_nulos_witness :
  exists v, nth 1 [Str "luis"; Num 41] NaN = Num v.
Proof.
  apply (outliers_elimina_nulos (3 # 2) ["edad"] marco_personas
           (mkDataFrame [("nombre", object); ("edad", float64)]
              [[Str "ana"; Num 30]; [Str "luis"; Num 41]; [Str "ana"; Num 30]])
           "edad" 1 float64).
  - vm_compute. reflexivity.
  - simpl. auto.
  - reflexivity.
  - simpl. auto.
Defined.

(** X8 — RemoveOutliers on a numeric column without any non-null value
    (an empty frame, or a column of nulls only): the quartiles are missing,
    every comparison is false and the step leaves a frame without rows. *)
Theorem columna_sin_valores_vacia_el_marco (u : Q) (d : DataFrame) (col : string)
    (j : nat) (dt : dtype) :
  buscar_columna col (columns d) 0 = Some (j, dt) ->
  es_numerico dt = true ->
  no_nulos (valores_columna j (rows d)) = [] ->
  filtrar_columna u d col = Normal (mkDataFrame (columns d) []).
Proof.
  intros Hb Hn Hv. unfold filtrar_columna. rewrite Hb, Hn. simpl orb.
  unfold quantile. rewrite Hv. simpl.
  unfold getitem_mask, valores_columna.
  rewrite map_map, mask_rows_map. f_equal. f_equal.
  clear. induction (rows d) as [|r rs IH]; simpl; auto.
Qed.

Lemma columna_sin_valores_vacia_el_marco_witness :
  filtrar_columna (3 # 2)
    (mkDataFrame [("x", float64); ("y", float64)] [[NaN; Num 1]; [NaN; Num 2]]) "x"
  = Normal (mkDataFrame [("x", float64); ("y", float64)] []).
Proof.
  apply (columna_sin_valores_vacia_el_marco (3 # 2)
           (mkDataFrame [("x", float64); ("y", float64)] [[NaN; Num 1]; [NaN; Num 2]])
           "x" 0 float64); reflexivity.
Defined.

Lemma buscar_columna_In (cs : list (string * dtype)) :
  forall j c dt,
  NoDup (map fst cs) -> In (c, dt) cs ->
  exists j', buscar_columna c cs j = Some (j', dt).
Proof.
  induction cs as [|[n d0] cs IH]; intros j c dt Hnd Hin; [destruct Hin|].
  simpl in *. inversion Hnd as [|? ? Hnotin Hnd']; subst.
  destruct (String.eqb n c) eqn:E.
  - apply String.eqb_eq in E. subst n.
    destruct Hin as [H|H].
    + injection H as ->. eexists; reflexivity.
    + exfalso. apply Hnotin. apply in_map_iff. exists (c, dt). auto.
  - destruct Hin as [H|H].
    + injection H as -> ->. rewrite String.eqb_refl in E. discriminate.
    + apply IH; assumption.
Qed.

Lemma columnas_numericas_validas (d : DataFrame) :
  NoDup (map fst (columns d)) ->
  forallb (columna_numerica (columns d)) (columnas_numericas d) = true.
Proof.
  intros Hnd. apply forallb_forall. intros c Hc.
  unfold columnas_numericas in Hc. apply in_map_iff in Hc.
  destruct Hc as ([c' dt] & <- & Hin). apply filter_In in Hin.
  destruct Hin as [Hin Hnum]. simpl in *.
  destruct (buscar_columna_In (columns d) 0 c' dt Hnd Hin) as (j' & E).
  unfold columna_numerica. rewrite E. exact Hnum.
Qed.

(** X9 — A RemoveOutliers operation without the parameter [columnas] takes
    the [float64] and [int64] columns of the current frame and never raises,
    on a frame whose column names are pairwise distinct. *)
Theorem outliers_por_defecto_no_falla (st : Estado) (l : Limpieza) :
  NoDup (map fst (columns (df st))) ->
  tipo l = Some "outliers" ->
  columnas (parametros l) = None ->
  exists d',
    filtrar_outliers (get_or (umbral (parametros l)) (3 # 2))
      (columnas_numericas (df st)) (df st) = Normal d'
    /\ aplicar_limpieza st l =
       Normal (registrar st l d' (duplicados_guardados st)
                 (Z.of_nat (len (df st)) - Z.of_nat (len d'))%Z).
Proof.
  intros Hnd Hl Hcols.
  destruct (filtrar_outliers_numericas (get_or (umbral (parametros l)) (3 # 2))
              (columnas_numericas (df st)) (df st)
              (columnas_numericas_validas (df st) Hnd)) as (d' & E).
  exists d'. split; [exact E|].
  unfold aplicar_limpieza.
  assert (Hd : es_tipo (tipo l) "duplicados" = false) by (rewrite Hl; reflexivity).
  assert (Hn : es_tipo (tipo l) "nulos" = false) by (rewrite Hl; reflexivity).
  assert (Ho : es_tipo (tipo l) "outliers" = true) by (rewrite Hl; reflexivity).
  rewrite Hd, Hn, Ho, Hcols.
  change (get_or None (columnas_numericas (df st))) with (columnas_numericas (df st)).
  rewrite E. reflexivity.
Qed.

Lemma outliers_por_defecto_no_falla_witness :
  exists d',
    aplicar_limpieza (estado_inicial marco_personas)
      (mkLimpieza (Some "outliers") sin_parametros)
    = Normal (registrar (estado_inicial marco_personas)
                (mkLimpieza (Some "outliers") sin_parametros) d' DataFrame_vacio
                (4 - Z.of_nat (len d'))%Z).
Proof.
  destruct (outliers_por_defecto_no_falla (estado_inicial marco_personas)
              (mkLimpieza (Some "outliers") sin_parametros)) as (d' & _ & H).
  - simpl. repeat constructor; simpl; intuition discriminate.
  - reflexivity.
  - reflexivity.
  - exists d'. exact H.
Defined.

(** ** FillNulls *)

Lemma fillna_relleno_idem (dt : dtype) (c : cell) :
  fillna (relleno dt) (fillna (relleno dt) c) = fillna (relleno dt) c.
Proof. destruct c, dt; reflexivity. Qed.

Lemma rellenar_fila_idem (ds : list dtype) :
  forall r, rellenar_fila ds (rellenar_fila ds r) = rellenar_fila ds r.
Proof.
  induction ds as [|dt ds IH]; intros [|c r]; simpl; auto.
  rewrite fillna_relleno_idem, IH. reflexivity.
Qed.

Lemma rellenar_nulos_por_filas (d : DataFrame) :
  rellenar_nulos d =
  mkDataFrame (columns d) (map (rellenar_fila (map snd (columns d))) (rows d)).
Proof.
  rewrite <- rows_rellenar_nulos. reflexivity.
Qed.

Lemma rellenar_nulos_idem (d : DataFrame) :
  rellenar_nulos (rellenar_nulos d) = rellenar_nulos d.
Proof.
  rewrite (rellenar_nulos_por_filas (rellenar_nulos d)).
  rewrite (rellenar_nulos_por_filas d). simpl.
  f_equal. rewrite map_map. apply map_ext. intros r. apply rellenar_fila_idem.
Qed.

Lemma celdas_nulas_rellenar_nulos (d : DataFrame) :
  rectangular d -> celdas_nulas (rellenar_nulos d) = 0.
Proof.
  unfold rectangular, celdas_nulas. rewrite rows_rellenar_nulos, map_map.
  induction (rows d) as [|r rs IH]; intros H; simpl; [reflexivity|].
  inversion H as [|? ? Hr Hrs]; subst.
  rewrite rellenar_fila_sin_nulos, (IH Hrs); [reflexivity|].
  rewrite length_map. exact Hr.
Qed.

(** X10 — FillNulls twice in a row on a frame with one cell per column in
    every row: the second FillNulls reports [afectados = 0] and the frame is
    the one the first left. *)
Theorem nulos_dos_veces (st : Estado) (p1 p2 : Parametros) :
  rectangular (df st) ->
  exists st',
    aplicar_limpiezas st [mkLimpieza (Some "nulos") p1; mkLimpieza (Some "nulos") p2]
    = Normal st'
    /\ operaciones_realizadas st' =
       operaciones_realizadas st ++
       [mkOperacion (Some "nulos") p1 (Z.of_nat (isnull_sum_sum (df st)));
        mkOperacion (Some "nulos") p2 0%Z]
    /\ df st' = rellenar_nulos (df st).
Proof.
  intros Hrect. eexists. split; [reflexivity|].
  cbn [registrar df duplicados_guardados operaciones_realizadas tipo parametros].
  rewrite rellenar_nulos_idem.
  rewrite (isnull_sum_sum_celdas _ (rectangular_rellenar_nulos _ Hrect)).
  rewrite (celdas_nulas_rellenar_nulos _ Hrect), <- app_assoc.
  split; reflexivity.
Qed.

Lemma nulos_dos_veces_witness :
  exists st',
    aplicar_limpiezas (estado_inicial marco_mixto) [op_nulos; op_nulos] = Normal st'
    /\ operaciones_realizadas st' =
       [mkOperacion (Some "nulos") sin_parametros 4%Z;
        mkOperacion (Some "nulos") sin_parametros 0%Z].
Proof.
  destruct (nulos_dos_veces (estado_inicial marco_mixto) sin_parametros sin_parametros)
    as (st' & H1 & H2 & _).
  - repeat constructor.
  - exists st'. split; [exact H1 | exact H2].
Defined.

(** * Further properties of the endpoint *)

Lemma total_suma_invariante (st : Estado) (ls : list Limpieza) :
  total_afectados st = suma_afectados (operaciones_realizadas st) ->
  total_afectados (locales_de (aplicar_limpiezas st ls))
  = suma_afectados (operaciones_realizadas (locales_de (aplicar_limpiezas st ls))).
Proof.
  revert st. apply (aplicar_limpiezas_invariante
           (fun st => total_afectados st = suma_afectados (operaciones_realizadas st))).
  intros st l Hst.
  destruct (aplicar_limpieza_casos st l) as [[_ E]|[[_ E]|[[_ E]|E]]];
    rewrite E; clear E;
    try (destruct (filtrar_outliers _ _ _)); simpl;
    try rewrite suma_afectados_app; simpl; rewrite ?Hst; reflexivity.
Qed.

Section PropiedadesRespuesta.

Variable parse : analizador.
Variable tabla_datasets : Z -> option string.
Variable storage : string -> option (list Byte.byte).
Variable get_public_url : string -> string.
Variable id_generado : option Z.

Local Abbreviation servicio :=
  (limpiar_dataset_multiple parse tabla_datasets storage get_public_url id_generado).

(** The endpoint after the validation of the request. *)
Lemma servicio_validada (req : Peticion) (id : Z) :
  dataset_id req = Some id -> id <> 0%Z -> tipos_limpieza req <> [] ->
  servicio req =
  match tabla_datasets id with
  | None => (R404 "Dataset no encontrado.", [Select "datasets" id])
  | Some ruta =>
      match storage ruta with
      | None => (R500 PorDescarga, [Select "datasets" id; Download ruta])
      | Some bs =>
          match fst (cargar_para_limpieza parse bs) with
          | Falla e => (R500 (PorLectura e), [Select "datasets" id; Download ruta])
          | Leido d =>
              match aplicar_limpiezas (estado_inicial d) (tipos_limpieza req) with
              | Lanza e _ =>
                  (R500 (PorOperacion e), [Select "datasets" id; Download ruta])
              | Normal st =>
                  (fst (publicar get_public_url id_generado id ruta st),
                   [Select "datasets" id; Download ruta]
                   ++ snd (publicar get_public_url id_generado id ruta st))
              end
          end
      end
  end.
Proof.
  intros Hid Hnz Hops.
  unfold limpiar_dataset_multiple.
  rewrite Hid. simpl sin_dataset_id. simpl get_or.
  apply Z.eqb_neq in Hnz. rewrite Hnz.
  destruct (tipos_limpieza req) as [|l ls] eqn:E; [contradiction|].
  simpl sin_tipos. simpl orb. cbv iota.
  destruct (tabla_datasets id) as [ruta|]; [|reflexivity].
  destruct (storage ruta) as [bs|]; [|reflexivity].
  destruct (fst (cargar_para_limpieza parse bs)) as [d|e]; [|reflexivity].
  destruct (aplicar_limpiezas (estado_inicial d) (l :: ls)) as [st|e st];
    [|reflexivity].
  destruct (publicar get_public_url id_generado id ruta st). reflexivity.
Qed.

Lemma servicio_no_validada (req : Peticion) :
  sin_dataset_id (dataset_id req) = true \/ tipos_limpieza req = [] ->
  servicio req = (R400 "Debe incluir dataset_id y una lista de tipos_limpieza.", []).
Proof.
  unfold limpiar_dataset_multiple. intros [H|H]; rewrite H.
  - reflexivity.
  - rewrite orb_true_r. reflexivity.
Qed.

(** The four ways the endpoint ends. *)
Lemma servicio_casos (req : Peticion) :
  servicio req = (R400 "Debe incluir dataset_id y una lista de tipos_limpieza.", [])
  \/ (exists id,
        servicio req = (R404 "Dataset no encontrado.", [Select "datasets" id]))
  \/ (exists id ruta e,
        servicio req = (R500 e, [Select "datasets" id; Download ruta]))
  \/ (exists id ruta bs d st,
        dataset_id req = Some id /\ id <> 0%Z /\ tipos_limpieza req <> []
        /\ tabla_datasets id = Some ruta /\ storage ruta = Some bs
        /\ fst (cargar_para_limpieza parse bs) = Leido d
        /\ aplicar_limpiezas (estado_inicial d) (tipos_limpieza req) = Normal st
        /\ servicio req =
           (fst (publicar get_public_url id_generado id ruta st),
            [Select "datasets" id; Download ruta]
            ++ snd (publicar get_public_url id_generado id ruta st))).
Proof.
  destruct (dataset_id req) as [id|] eqn:Hid;
    [|left; apply servicio_no_validada; left; rewrite Hid; reflexivity].
  destruct (Z.eqb_spec id 0) as [Hz|Hnz];
    [left; apply servicio_no_validada; left; rewrite Hid, Hz; reflexivity|].
  destruct (tipos_limpieza req) as [|l ls] eqn:Hops;
    [left; apply servicio_no_validada; right; exact Hops|].
  assert (Hne : tipos_limpieza req <> []) by (rewrite Hops; discriminate).
  rewrite <- Hops.
  rewrite (servicio_validada req id Hid Hnz Hne).
  destruct (tabla_datasets id) as [ruta|] eqn:Htab;
    [|right; left; exists id; reflexivity].
  destruct (storage ruta) as [bs|] eqn:Hsto;
    [|right; right; left; exists id, ruta; eexists; reflexivity].
  destruct (fst (cargar_para_limpieza parse bs)) as [d|e] eqn:Hcsv;
    [|right; right; left; exists id, ruta; eexists; reflexivity].
  destruct (aplicar_limpiezas (estado_inicial d) (tipos_limpieza req))
    as [st|e st] eqn:Hrun;
    [|right; right; left; exists id, ruta; eexists; reflexivity].
  right; right; right. exists id, ruta, bs, d, st.
  repeat split; auto.
Qed.

Lemma publicar_forma (id : Z) (ruta : string) (st : Estado) :
  exists previos ruta_limpio ruta_dups url_limpio url_dups,
    publicar get_public_url id_generado id ruta st =
    (R200 (operaciones_realizadas st) (total_afectados st) url_limpio url_dups
       id_generado,
     previos ++
     [Insert "limpiezas_datos"
        (RegistroLimpieza id "multiple" (operaciones_realizadas st)
           (total_afectados st) ruta_limpio ruta_dups "Completada")]).
Proof.
  unfold publicar. cbv zeta. do 5 eexists. rewrite app_assoc. reflexivity.
Qed.

(** X11 — A response 200 is coherent with the request and with the record
    of the run: the report has one entry per requested operation, in order,
    echoing kind and parameters; the total is the sum of the [afectados] of
    the report; and the last call made is the insert into [limpiezas_datos]
    of a record with the same report and total and the state
    ["Completada"]. *)
Theorem respuesta_completa_coherente (req : Peticion) (ops : list Operacion)
    (total : Z) (url_limpio : string) (url_dups : option string)
    (lid : option Z) (efectos : list efecto) :
  servicio req = (R200 ops total url_limpio url_dups lid, efectos) ->
  map op_tipo ops = map tipo (tipos_limpieza req)
  /\ map op_parametros ops = map parametros (tipos_limpieza req)
  /\ total = suma_afectados ops
  /\ exists id previos ruta_limpio ruta_dups,
       dataset_id req = Some id
       /\ efectos = previos ++
          [Insert "limpiezas_datos"
             (RegistroLimpieza id "multiple" ops total ruta_limpio ruta_dups
                "Completada")].
Proof.
  intros H.
  destruct (servicio_casos req)
    as [E|[(id & E)|[(id & ruta & e & E)|
        (id & ruta & bs & d & st & Hid & _ & _ & _ & _ & _ & Hrun & E)]]];
    rewrite E in H; try discriminate.
  destruct (publicar_forma id ruta st)
    as (previos & ruta_limpio & ruta_dups & u1 & u2 & Hpub).
  rewrite Hpub in H. cbn [fst snd] in H. injection H as <- <- _ _ _ <-.
  destruct (aplicar_limpiezas_informe _ _ _ Hrun) as (nuevas & Hn & Ht & Hp).
  simpl in Hn. subst nuevas.
  pose proof (total_suma_invariante (estado_inicial d) (tipos_limpieza req) eq_refl)
    as Hsum.
  rewrite Hrun in Hsum. simpl in Hsum.
  repeat split; auto.
  exists id, ([Select "datasets" id; Download ruta] ++ previos),
    ruta_limpio, ruta_dups.
  split; [exact Hid|]. reflexivity.
Qed.

(** X12 — The endpoint writes only after the loop has completed: an
    upload or an insert is among the calls made, or among the first [k] of
    them (a call to the storage or to the catalog that raises ends the run
    with a 500 after the calls made so far), only if the request passed the
    validation, the dataset was found, downloaded and read, and every
    operation of the request returned normally. *)
Theorem solo_escribe_si_completa (req : Peticion) (k : nat) (e : efecto) :
  In e (firstn k (snd (servicio req))) ->
  es_escritura e = true ->
  exists id ruta bs d st,
    dataset_id req = Some id /\ tipos_limpieza req <> []
    /\ tabla_datasets id = Some ruta /\ storage ruta = Some bs
    /\ fst (cargar_para_limpieza parse bs) = Leido d
    /\ aplicar_limpiezas (estado_inicial d) (tipos_limpieza req) = Normal st
    /\ In e (snd (publicar get_public_url id_generado id ruta st)).
Proof.
  intros Hin He.
  assert (Hin' : In e (snd (servicio req))).
  { rewrite <- (firstn_skipn k (snd (servicio req))). apply in_or_app.
    left. exact Hin. }
  clear Hin.
  destruct (servicio_casos req)
    as [E|[(id & E)|[(id & ruta & err & E)|
        (id & ruta & bs & d & st & Hid & _ & Hops & Htab & Hsto & Hcsv & Hrun & E)]]];
    rewrite E in Hin'; cbn [snd] in Hin'.
  - destruct Hin'.
  - destruct Hin' as [<-|[]]. discriminate.
  - destruct Hin' as [<-|[<-|[]]]; discriminate.
  - exists id, ruta, bs, d, st. repeat split; auto.
    apply in_app_or in Hin'. destruct Hin' as [H|H]; [|exact H].
    destruct H as [<-|[<-|[]]]; discriminate.
Qed.

(** X13 — A run that returns normally with a side-table that is not
    empty: after the two reads, the cleaned frame is uploaded, then the
    side-table under [duplicates/duplicates_<name>], then a record with that
    path and the number of rows of the side-table is inserted into
    [duplicados_datasets], then the record of the run, which carries the
    same path; the response carries the public URL of that path. *)
Theorem con_duplicados_publica_artefacto (req : Peticion) (id : Z) (ruta : string)
    (bs : list Byte.byte) (d : DataFrame) (st : Estado) :
  dataset_id req = Some id -> id <> 0%Z -> tipos_limpieza req <> [] ->
  tabla_datasets id = Some ruta ->
  storage ruta = Some bs ->
  fst (cargar_para_limpieza parse bs) = Leido d ->
  aplicar_limpiezas (estado_inicial d) (tipos_limpieza req) = Normal st ->
  empty (duplicados_guardados st) = false ->
  let ruta_limpio := ("clean/" ++ "clean_multi_" ++ basename ruta)%string in
  let ruta_dups := ("duplicates/" ++ "duplicates_" ++ basename ruta)%string in
  servicio req =
  (R200 (operaciones_realizadas st) (total_afectados st)
     (get_public_url ruta_limpio) (Some (get_public_url ruta_dups)) id_generado,
   [Select "datasets" id;
    Download ruta;
    Upload ruta_limpio (df st);
    Upload ruta_dups (duplicados_guardados st);
    Insert "duplicados_datasets"
      (RegistroDuplicados id ruta_dups (len (duplicados_guardados st)));
    Insert "limpiezas_datos"
      (RegistroLimpieza id "multiple" (operaciones_realizadas st)
         (total_afectados st) ruta_limpio (Some ruta_dups) "Completada")]).
Proof.
  intros Hid Hnz Hops Htab Hsto Hcsv Hrun Hemp ruta_limpio ruta_dups.
  rewrite (servicio_hasta_el_bucle parse tabla_datasets storage get_public_url
             id_generado req id ruta bs d Hid Hnz Hops Htab Hsto Hcsv).
  rewrite Hrun. unfold publicar. rewrite Hemp. reflexivity.
Qed.

End PropiedadesRespuesta.

Lemma respuesta_completa_coherente_witness :
  map op_tipo [mkOperacion (Some "duplicados") sin_parametros 0%Z]
  = map tipo [op_duplicados]
  /\ 0%Z = suma_afectados [mkOperacion (Some "duplicados") sin_parametros 0%Z].
Proof.
  destruct (respuesta_completa_coherente (parse_fijo marco_mixto) tabla_ejemplo
              storage_ejemplo url_ejemplo (Some 1%Z)
              (mkPeticion (Some 7%Z) [op_duplicados])
              [mkOperacion (Some "duplicados") sin_parametros 0%Z] 0%Z
              "https://storage.example/clean/clean_multi_personas.csv" None
              (Some 1%Z)
              [Select "datasets" 7%Z;
               Download "datasets/personas.csv";
               Upload "clean/clean_multi_personas.csv" marco_mixto;
               Insert "limpiezas_datos"
                 (RegistroLimpieza 7%Z "multiple"
                    [mkOperacion (Some "duplicados") sin_parametros 0%Z] 0%Z
                    "clean/clean_multi_personas.csv" None "Completada")])
    as (H1 & _ & H3 & _).
  - vm_compute. reflexivity.
  - split; [exact H1 | exact H3].
Defined.

Lemma solo_escribe_si_completa_witness :
  exists id ruta bs d st,
    Some 7%Z = Some id /\ [op_duplicados] <> []
    /\ tabla_ejemplo id = Some ruta /\ storage_ejemplo ruta = Some bs
    /\ fst (cargar_para_limpieza (parse_fijo marco_mixto) bs) = Leido d
    /\ aplicar_limpiezas (estado_inicial d) [op_duplicados] = Normal st
    /\ In (Upload "clean/clean_multi_personas.csv" marco_mixto)
         (snd (publicar url_ejemplo (Some 1%Z) id ruta st)).
Proof.
  apply (solo_escribe_si_completa (parse_fijo marco_mixto) tabla_ejemplo
           storage_ejemplo url_ejemplo (Some 1%Z)
           (mkPeticion (Some 7%Z) [op_duplicados]) 3
           (Upload "clean/clean_multi_personas.csv" marco_mixto)).
  - vm_compute. right. right. left. reflexivity.
  - reflexivity.
Defined.

Lemma con_duplicados_publica_artefacto_witness :
  snd (servicio_ejemplo marco_personas (mkPeticion (Some 7%Z) [op_duplicados]))
  = [Select "datasets" 7%Z;
     Download "datasets/personas.csv";
     Upload "clean/clean_multi_personas.csv" (df estado_personas_sin_duplicados);
     Upload "duplicates/duplicates_personas.csv"
       (mkDataFrame [("nombre", object); ("edad", float64)] [[Str "ana"; Num 30]]);
     Insert "duplicados_datasets"
       (RegistroDuplicados 7%Z "duplicates/duplicates_personas.csv" 1);
     Insert "limpiezas_datos"
       (RegistroLimpieza 7%Z "multiple"
          [mkOperacion (Some "duplicados") sin_parametros 1%Z] 1%Z
          "clean/clean_multi_personas.csv"
          (Some "duplicates/duplicates_personas.csv") "Completada")].
Proof.
  unfold servicio_ejemplo.
  rewrite (con_duplicados_publica_artefacto (parse_fijo marco_personas)
             tabla_ejemplo storage_ejemplo url_ejemplo (Some 1%Z)
             (mkPeticion (Some 7%Z) [op_duplicados]) 7%Z "datasets/personas.csv"
             [Byte.x78; Byte.x0a] marco_personas estado_personas_sin_duplicados).
  - reflexivity.
  - reflexivity.
  - discriminate.
  - discriminate.
  - reflexivity.
  - reflexivity.
  - reflexivity.
  - vm_compute. reflexivity.
  - reflexivity.
Defined.

(** * Further properties of the loaders and of the artifact paths *)

Lemma decode_utf8_ascii (bs : list Byte.byte) :
  Forall (fun b => (Byte.to_N b < 128)%N) bs ->
  decode_utf8 bs = Some (decode_latin1 bs).
Proof.
  induction 1 as [|b bs Hb _ IH]; [reflexivity|].
  simpl. apply N.ltb_lt in Hb. rewrite Hb, IH. reflexivity.
Qed.

Lemma lineas_Forall (P : Byte.byte -> Prop) (bs : list Byte.byte) :
  Forall P bs -> Forall (Forall P) (lineas bs).
Proof.
  induction 1 as [|b bs Hb _ IH]; simpl; [repeat constructor|].
  destruct (es_LF b); [constructor; [constructor|exact IH]|].
  destruct (lineas bs) as [|l ls]; [repeat constructor; exact Hb|].
  inversion IH as [|? ? Hl Hls]; subst.
  constructor; [constructor; assumption|exact Hls].
Qed.

Lemma decodificar_lineas_ascii (ls : list (list Byte.byte)) :
  Forall (Forall (fun b => (Byte.to_N b < 128)%N)) ls ->
  decodificar_lineas utf_8 ls = decodificar_lineas latin_1 ls.
Proof.
  induction 1 as [|l ls Hl _ IH]; simpl; [reflexivity|].
  rewrite (decode_utf8_ascii l Hl), IH. reflexivity.
Qed.

(** X14 — A payload made of ASCII bytes only decodes to the same text in
    UTF-8 and in Latin-1: every read gives what the Latin-1 read gives, and
    the loader of the cleaning endpoint makes a single attempt. *)
Theorem carga_ascii_un_intento (parse : analizador)
    (bs : list Byte.byte) :
  Forall (fun b => (Byte.to_N b < 128)%N) bs ->
  (forall l, leer parse l utf_8 bs = leer parse l latin_1 bs)
  /\ cargar_para_limpieza parse bs
     = (leer parse read_csv latin_1 bs, [(read_csv, utf_8)]).
Proof.
  intros H. pose proof (decode_utf8_ascii bs H) as Hd.
  assert (Hl : forall l, leer parse l utf_8 bs = leer parse l latin_1 bs).
  { intros [|].
    - rewrite !leer_csv.
      rewrite (decodificar_lineas_ascii (lineas_leidas parse bs)); [reflexivity|].
      apply (incl_Forall (seleccionar_incl _ _)). apply lineas_Forall. exact H.
    - unfold leer. simpl. rewrite Hd. reflexivity. }
  split; [exact Hl|].
  unfold cargar_para_limpieza, leer_con_respaldo. rewrite Hl.
  pose proof (leer_latin1_decodifica parse read_csv bs) as Hn.
  destruct (leer parse read_csv latin_1 bs) as [d|[|]]; try reflexivity.
  contradiction.
Qed.

Lemma carga_ascii_un_intento_witness :
  cargar_para_limpieza (parse_fijo marco_x) [Byte.x78; Byte.x0a]
  = (Leido marco_x, [(read_csv, utf_8)]).
Proof.
  destruct (carga_ascii_un_intento (parse_fijo marco_x) [Byte.x78; Byte.x0a])
    as [_ H].
  - repeat constructor.
  - rewrite H. reflexivity.
Defined.

(** X15 — The reading block of the upload endpoint makes at most two
    attempts, the first one in UTF-8; a Latin-1 attempt is made only with
    [read_csv] and only when the payload is not valid UTF-8; a [.json] file
    that is not also a [.csv] file is attempted once. *)
Theorem intentos_de_cargar_archivo (parse : analizador)
    (filename : string) (bs : list Byte.byte) :
  length (snd (cargar_archivo parse filename bs)) <= 2
  /\ (forall l enc,
        nth_error (snd (cargar_archivo parse filename bs)) 0 = Some (l, enc) ->
        enc = utf_8)
  /\ (forall l,
        In (l, latin_1) (snd (cargar_archivo parse filename bs)) ->
        l = read_csv /\ endswith filename ".csv" = true /\ decode_utf8 bs = None)
  /\ (endswith filename ".csv" = false -> endswith filename ".json" = true ->
      snd (cargar_archivo parse filename bs) = [(read_json, utf_8)]).
Proof.
  unfold cargar_archivo.
  destruct (endswith filename ".csv") eqn:Ecsv.
  - unfold leer_con_respaldo.
    destruct (leer parse read_csv utf_8 bs) as [d|[|]] eqn:E; simpl.
    + repeat split; try lia; try discriminate.
      * intros l enc [= <- <-]. reflexivity.
      * destruct H as [H|[]]; discriminate.
      * destruct H as [H|[]]; discriminate.
    + repeat split; try lia; try discriminate.
      * intros l enc [= <- <-]. reflexivity.
      * destruct H as [H|[H|[]]]; [discriminate | injection H as <-; reflexivity].
      * apply leer_csv_utf8_falla in E.
        destruct (decode_utf8 bs) as [t|] eqn:D; [|reflexivity].
        rewrite (lineas_leidas_validas parse bs) in E; [discriminate|].
        rewrite D. discriminate.
    + repeat split; try lia; try discriminate.
      * intros l enc [= <- <-]. reflexivity.
      * destruct H as [H|[]]; discriminate.
      * destruct H as [H|[]]; discriminate.
  - destruct (endswith filename ".json") eqn:Ejson; simpl.
    + repeat split; try lia; try discriminate.
      * intros l enc [= <- <-]. reflexivity.
      * destruct H as [H|[]]; discriminate.
      * destruct H as [H|[]]; discriminate.
      * destruct H as [H|[]]; discriminate.
    + repeat split; try lia; try discriminate; try contradiction.
Qed.

Lemma intentos_de_cargar_archivo_witness :
  snd (cargar_archivo parse_e_aguda "datos.json" [Byte.xe9]) = [(read_json, utf_8)].
Proof.
  destruct (intentos_de_cargar_archivo parse_e_aguda "datos.json" [Byte.xe9])
    as (_ & _ & _ & H).
  apply H; reflexivity.
Defined.

Lemma basename_aux_barra (s1 : string) :
  forall acc s2,
  basename_aux acc (s1 ++ String "/" s2)%string = basename_aux EmptyString s2.
Proof.
  induction s1 as [|c s1 IH]; intros acc s2; simpl.
  - reflexivity.
  - destruct (Ascii.eqb c "/"); apply IH.
Qed.

(** X16 — The paths of the artifacts are derived from the file name of the
    dataset only: what stands before the last ["/"] of its path, and the
    dataset it belongs to, do not show in them, so two datasets stored under
    the same file name in different folders get the same cleaned and
    duplicates paths. *)
Theorem rutas_solo_del_nombre (get_public_url : string -> string)
    (id_generado : option Z) (id : Z) (dir1 dir2 nombre : string) (st : Estado) :
  basename (dir1 ++ String "/" nombre)%string
  = basename (dir2 ++ String "/" nombre)%string
  /\ publicar get_public_url id_generado id (dir1 ++ String "/" nombre)%string st
     = publicar get_public_url id_generado id (dir2 ++ String "/" nombre)%string st.
Proof.
  assert (H : basename (dir1 ++ String "/" nombre)%string
              = basename (dir2 ++ String "/" nombre)%string).
  { unfold basename. rewrite !basename_aux_barra. reflexivity. }
  split; [exact H|]. unfold publicar. rewrite H. reflexivity.
Qed.

(** * Properties of the other endpoints *)

Section PropiedadesEndpoints.

Variable parse : analizador.
Variable open_wb : string -> bool.
Variable upload : string -> list Byte.byte -> bool.
Variable insert : string -> dict -> option (list dict).
Variable update : string -> dict -> string -> json -> bool.
Variable select : string -> string -> json -> option (list dict).
Variable ahora : string.

(** X17 — [create_dataset] with a file: a response 201 means that the file
    was read into a frame, that the bytes received were uploaded unchanged
    under [datasets/<filename>], and that, after it, one row was inserted
    into [datasets] with that name, that path and the numbers of rows and
    columns of the frame; the body names the file. *)
Theorem create_dataset_201_archivo (filename : string) (bs : list Byte.byte)
    (cuerpo : dict) (llamadas : list llamada) :
  create_dataset parse open_wb upload insert ahora (ConArchivo filename bs)
  = (Http 201 cuerpo, llamadas) ->
  exists d,
    fst (cargar_archivo parse filename bs) = Cargado d
    /\ llamadas =
       [StorageUpload ("datasets/" ++ filename)%string bs;
        TableInsert "datasets"
          [("nombre", JStr filename);
           ("ruta_almacenamiento", JStr ("datasets/" ++ filename)%string);
           ("num_filas", JNum (inject_Z (Z.of_nat (len d))));
           ("num_columnas", JNum (inject_Z (Z.of_nat (length (columns d)))));
           ("metadata_json", JObj []);
           ("fecha_carga", JStr ahora)]]
    /\ dict_get "nombre" cuerpo = Some (JStr filename).
Proof.
  unfold create_dataset.
  destruct (file_save open_wb (path_join "temp" filename)); [|discriminate].
  cbv iota beta zeta. simpl negb. cbv iota.
  destruct (fst (cargar_archivo parse filename bs)) as [d| |e]; try discriminate.
  destruct (upload _ bs); [|discriminate].
  destruct (insert "datasets" _) as [data|]; [|discriminate].
  destruct (primer_campo data "id") as [id|]; [|discriminate].
  intros H. injection H as <- <-.
  exists d. repeat split.
Qed.

(** X18 — [create_dataset] with a file that cannot be saved under [temp],
    or that is saved but not read into a frame, makes no call at all: the
    answer is 500 when [file.save] raises, whatever the name (and it always
    raises for an empty name); once the file is saved, it is 400 when the
    name ends neither in [.csv] nor in [.json], and 500 when the read
    fails. *)
Theorem create_dataset_sin_marco_sin_llamadas (filename : string)
    (bs : list Byte.byte) :
  file_save open_wb (path_join "temp" filename) = false
  \/ (forall d, fst (cargar_archivo parse filename bs) <> Cargado d) ->
  create_dataset parse open_wb upload insert ahora (ConArchivo filename bs)
  = (if file_save open_wb (path_join "temp" filename)
     then if endswith filename ".csv" || endswith filename ".json"
          then Http500
          else Http 400 [("message", JStr "Formato no soportado. Solo CSV o JSON.")]
     else Http500,
     [])
  /\ create_dataset parse open_wb upload insert ahora (ConArchivo "" bs)
     = (Http500, []).
Proof.
  intros H. split; [|reflexivity].
  unfold create_dataset. cbv zeta.
  destruct (file_save open_wb (path_join "temp" filename)) eqn:Hs;
    [|reflexivity].
  destruct H as [H|H]; [discriminate|].
  simpl negb. cbv iota.
  destruct (fst (cargar_archivo parse filename bs)) as [d| |e] eqn:E.
  - exfalso. apply (H d). reflexivity.
  - unfold cargar_archivo in E.
    destruct (endswith filename ".csv").
    + destruct (leer_con_respaldo parse read_csv bs) as [[d|e] log];
        cbn [fst carga_de] in E; discriminate.
    + destruct (endswith filename ".json"); [|reflexivity].
      cbn [fst] in E.
      destruct (leer parse read_json utf_8 bs); cbn [carga_de] in E; discriminate.
  - unfold cargar_archivo in E.
    destruct (endswith filename ".csv"); [reflexivity|].
    destruct (endswith filename ".json"); [reflexivity|].
    cbn [fst] in E. discriminate.
Qed.

(** X19 — [create_dataset] with a file that is saved under [temp] and
    read into a frame: the upload is always attempted; the insert into [datasets] is attempted
    exactly when the upload did not raise; and the response is 201 exactly
    when, in addition, the insert answered with a row that has an [id].  A
    500 after the upload leaves the uploaded file where it is. *)
Theorem create_dataset_archivo_leido (filename : string) (bs : list Byte.byte)
    (d : DataFrame) :
  file_save open_wb (path_join "temp" filename) = true ->
  fst (cargar_archivo parse filename bs) = Cargado d ->
  let ruta := ("datasets/" ++ filename)%string in
  let fila := fila_dataset_archivo ahora filename d in
  snd (create_dataset parse open_wb upload insert ahora (ConArchivo filename bs))
  = StorageUpload ruta bs
    :: (if upload ruta bs then [TableInsert "datasets" fila] else [])
  /\ ((exists cuerpo,
         fst (create_dataset parse open_wb upload insert ahora (ConArchivo filename bs))
         = Http 201 cuerpo)
      <-> upload ruta bs = true
          /\ exists data id,
               insert "datasets" fila = Some data
               /\ primer_campo data "id" = Some id)
  /\ ((forall cuerpo,
         fst (create_dataset parse open_wb upload insert ahora (ConArchivo filename bs))
         <> Http 201 cuerpo)
      -> fst (create_dataset parse open_wb upload insert ahora (ConArchivo filename bs))
         = Http500).
Proof.
  intros Hsave Hload ruta fila. unfold create_dataset. cbv zeta.
  rewrite Hsave, Hload. simpl negb. cbv iota.
  fold ruta. fold fila.
  destruct (upload ruta bs).
  - destruct (insert "datasets" fila) as [data|].
    + destruct (primer_campo data "id") as [id|] eqn:Hpc; simpl.
      * split; [reflexivity|]. split.
        -- split; [|intros _; eexists; reflexivity].
           intros _. split; [reflexivity|]. exists data, id. auto.
        -- intros H. exfalso. eapply H. reflexivity.
      * split; [reflexivity|]. split; [|reflexivity]. split.
        -- intros (c & H). discriminate.
        -- intros (_ & data' & id' & H1 & H2). injection H1 as <-.
           rewrite Hpc in H2. discriminate.
    + simpl. split; [reflexivity|]. split; [|reflexivity]. split.
      * intros (c & H). discriminate.
      * intros (_ & data' & id' & H1 & _). discriminate.
  - simpl. split; [reflexivity|]. split; [|reflexivity]. split.
    + intros (c & H). discriminate.
    + intros (H & _). discriminate.
Qed.

(** X20 — [create_dataset] with a JSON body never uploads anything: the
    only call it can make is one insert into [datasets] of a row whose
    fields are copied from the body; a body that is empty or has no key
    [nombre] is answered 400 with no call. *)
Theorem create_dataset_json_sin_subida (data : dict) :
  (data = [] \/ dict_in "nombre" data = false ->
   create_dataset parse open_wb upload insert ahora (ConJson data)
   = (Http 400 [("message", JStr "Faltan datos requeridos (nombre).")], []))
  /\ (data <> [] -> dict_in "nombre" data = true ->
      snd (create_dataset parse open_wb upload insert ahora (ConJson data))
      = [TableInsert "datasets"
           [("nombre", get_json "nombre" data);
            ("ruta_almacenamiento", get_json "ruta_almacenamiento" data);
            ("num_filas", get_json "num_filas" data);
            ("num_columnas", get_json "num_columnas" data);
            ("metadata_json", get_or (dict_get "metadata_json" data) (JObj []));
            ("fecha_carga", JStr ahora)]]).
Proof.
  unfold create_dataset. split.
  - intros [->|H]; [reflexivity|]. rewrite H.
    destruct data; reflexivity.
  - intros Hne Hin. rewrite Hin. destruct data as [|kv data']; [contradiction|].
    simpl orb. cbv iota.
    destruct (insert "datasets" _) as [r|]; [|reflexivity].
    destruct (primer_campo r "id"); [|reflexivity].
    destruct (primer_campo r "nombre"); reflexivity.
Qed.

End PropiedadesEndpoints.

Section PropiedadesEntrenamientos.

Variable insert : string -> dict -> option (list dict).
Variable update : string -> dict -> string -> json -> bool.
Variable select : string -> string -> json -> option (list dict).
Variable ahora : string.

(** X21 — [create_entrenamiento]: without both keys [limpieza_id] and
    [tipo_modelo] in the body the answer is 400 and no call is made;
    otherwise the only call is one insert into [entrenamientos] of a row
    with exactly eight fields whose [estado] is ["En Curso"], whatever the
    body holds under [estado] or under any other key. *)
Theorem entrenamiento_siempre_en_curso (data : dict) :
  (dict_in "limpieza_id" data = false \/ dict_in "tipo_modelo" data = false ->
   create_entrenamiento insert ahora data
   = (Http 400 [("message", JStr "Faltan limpieza_id y tipo_modelo.")], []))
  /\ (dict_in "limpieza_id" data = true -> dict_in "tipo_modelo" data = true ->
      exists fila,
        snd (create_entrenamiento insert ahora data)
        = [TableInsert "entrenamientos" fila]
        /\ map fst fila =
           ["limpieza_id"; "tipo_modelo"; "epocas"; "batch_size"; "learning_rate";
            "operaciones_limpieza"; "estado"; "fecha_inicio"]
        /\ dict_get "estado" fila = Some (JStr "En Curso")
        /\ dict_get "limpieza_id" fila = dict_get "limpieza_id" data
        /\ dict_get "tipo_modelo" fila = dict_get "tipo_modelo" data).
Proof.
  unfold create_entrenamiento. simpl forallb. split.
  - intros [H|H]; rewrite H; [|rewrite andb_false_r]; reflexivity.
  - intros H1 H2. rewrite H1, H2. simpl negb. cbv iota.
    exists (fila_entrenamiento ahora data). split; [|split; [|split; [|split]]].
    + destruct (insert "entrenamientos" _) as [r|]; [|reflexivity].
      destruct (primer_campo r "id"); [|reflexivity].
      destruct (primer_campo r "estado"); reflexivity.
    + reflexivity.
    + reflexivity.
    + unfold dict_in in H1. simpl. unfold get_json.
      destruct (dict_get "limpieza_id" data); [reflexivity | discriminate].
    + unfold dict_in in H2. simpl. unfold get_json.
      destruct (dict_get "tipo_modelo" data); [reflexivity | discriminate].
Qed.

(** X22 — [create_resultado]: a body that lacks one of [entrenamiento_id],
    [accuracy], [f1_score], [loss_final] is answered 400 with no call.  The
    training is marked ["Finalizado"] only after the insert of its metrics
    did not raise, and the update is keyed by the [entrenamiento_id] of the
    body; a response 201 means that both calls were made and did not raise;
    when the update raises, the metrics row has been inserted all the same. *)
Theorem resultado_antes_de_finalizar (data : dict) :
  let requeridos := ["entrenamiento_id"; "accuracy"; "f1_score"; "loss_final"] in
  let fila := fila_resultado data in
  let insercion := TableInsert "resultados_metricas" fila in
  let actualizacion :=
    TableUpdate "entrenamientos"
      [("estado", JStr "Finalizado"); ("fecha_fin", JStr ahora)]
      "id" (get_json "entrenamiento_id" data) in
  (forallb (fun field => dict_in field data) requeridos = false ->
   create_resultado insert update ahora data
   = (Http 400 [("message", JStr "Faltan campos requeridos.")], []))
  /\ (forall t campos col v,
        In (TableUpdate t campos col v)
           (snd (create_resultado insert update ahora data)) ->
        insert "resultados_metricas" fila <> None
        /\ snd (create_resultado insert update ahora data)
           = [insercion; actualizacion])
  /\ (forall cuerpo,
        fst (create_resultado insert update ahora data) = Http 201 cuerpo ->
        insert "resultados_metricas" fila <> None
        /\ update "entrenamientos"
             [("estado", JStr "Finalizado"); ("fecha_fin", JStr ahora)]
             "id" (get_json "entrenamiento_id" data) = true
        /\ snd (create_resultado insert update ahora data)
           = [insercion; actualizacion])
  /\ (forallb (fun field => dict_in field data) requeridos = true ->
      insert "resultados_metricas" fila <> None ->
      update "entrenamientos"
        [("estado", JStr "Finalizado"); ("fecha_fin", JStr ahora)]
        "id" (get_json "entrenamiento_id" data) = false ->
      create_resultado insert update ahora data
      = (Http500, [insercion; actualizacion])).
Proof.
  intros requeridos fila insercion actualizacion.
  unfold create_resultado. fold requeridos. fold fila.
  change (campos_finalizado ahora)
    with [("estado", JStr "Finalizado"); ("fecha_fin", JStr ahora)].
  destruct (forallb (fun field => dict_in field data) requeridos); simpl negb;
    cbv iota.
  - destruct (insert "resultados_metricas" fila) as [res|].
    + destruct (update "entrenamientos" _ "id" (get_json "entrenamiento_id" data)).
      * destruct (primer_campo res "id") as [id|]; simpl;
          repeat split; try discriminate; try congruence;
          intros; try discriminate.
      * simpl. repeat split; try discriminate; try congruence;
          intros; try discriminate.
    + simpl. repeat split; try discriminate; try congruence;
        intros; try discriminate;
        repeat match goal with
               | H : _ \/ _ |- _ => destruct H
               | H : False |- _ => destruct H
               end; try discriminate; try congruence.
  - simpl. repeat split; try discriminate; try congruence; intros;
      try contradiction; try discriminate.
Qed.

(** X23 — [get_entrenamiento] only reads: at most two selects and no
    insert, update or upload; the selects are keyed by the identifier of the
    URL; and the answer is 404 exactly when the first select answers with no
    row, in which case the second select is not made. *)
Theorem get_entrenamiento_solo_lee (entrenamiento_id : Z) :
  let consulta :=
    TableSelect "entrenamientos" "id" (JNum (inject_Z entrenamiento_id)) in
  let consulta_resultado :=
    TableSelect "resultados_metricas" "entrenamiento_id"
      (JNum (inject_Z entrenamiento_id)) in
  (snd (get_entrenamiento select entrenamiento_id) = [consulta]
   \/ snd (get_entrenamiento select entrenamiento_id) = [consulta; consulta_resultado])
  /\ ((exists cuerpo,
         fst (get_entrenamiento select entrenamiento_id) = Http 404 cuerpo)
      <-> select "entrenamientos" "id" (JNum (inject_Z entrenamiento_id)) = Some [])
  /\ (select "entrenamientos" "id" (JNum (inject_Z entrenamiento_id)) = Some [] ->
      snd (get_entrenamiento select entrenamiento_id) = [consulta]).
Proof.
  intros consulta consulta_resultado. unfold get_entrenamiento.
  destruct (select "entrenamientos" "id" _) as [[|datos resto]|].
  - simpl. split; [left; reflexivity|]. split; [|reflexivity].
    split; [reflexivity | intros _; eexists; reflexivity].
  - destruct (select "resultados_metricas" "entrenamiento_id" _) as [resultado|].
    + destruct (detalles datos resultado) as [cuerpo|]; simpl;
        (split; [right; reflexivity|]); (split; [|discriminate]);
        split; try discriminate; intros (c & H); discriminate.
    + simpl. split; [right; reflexivity|]. split; [|discriminate].
      split; try discriminate. intros (c & H); discriminate.
  - simpl. split; [left; reflexivity|]. split; [|discriminate].
    split; try discriminate. intros (c & H); discriminate.
Qed.

(** X24 — [get_entrenamiento] on a row whose key [limpiezas_datos] is
    present with the value null (or with any value that is not an object)
    answers 500: the ["N/A"] of the code is given only when the key is
    absent. *)
Theorem get_entrenamiento_relacion_nula (entrenamiento_id : Z) (datos : dict)
    (resto : list dict) (v : json) :
  select "entrenamientos" "id" (JNum (inject_Z entrenamiento_id))
  = Some (datos :: resto) ->
  dict_get "limpiezas_datos" datos = Some v ->
  (forall campos, v <> JObj campos) ->
  fst (get_entrenamiento select entrenamiento_id) = Http500.
Proof.
  intros Hsel Hget Hno. unfold get_entrenamiento. rewrite Hsel.
  destruct (select "resultados_metricas" "entrenamiento_id" _) as [resultado|];
    [|reflexivity].
  assert (Hd : detalles datos resultado = None).
  { unfold detalles, dataset_nombre, dict_in. rewrite Hget. simpl ligar at 6.
    assert (Hs : subscript v "datasets" = None).
    { destruct v; try reflexivity. exfalso. apply (Hno campos). reflexivity. }
    rewrite Hs.
    destruct (dict_get "id" datos); [|reflexivity].
    destruct (dict_get "tipo_modelo" datos); [|reflexivity].
    destruct (dict_get "estado" datos); [|reflexivity].
    destruct (dict_get "fecha_inicio" datos); [|reflexivity].
    destruct (dict_get "fecha_fin" datos); reflexivity. }
  rewrite Hd. reflexivity.
Qed.

(** X25 — [get_entrenamiento] answering 200: the body has the seven keys of
    [detalles] in order; the first five are copied from the row; the metrics
    are the first row of [resultados_metricas], or the empty object when
    there is none; and the name of the dataset is ["N/A"] when the row has no
    key [limpiezas_datos], the nested [limpiezas_datos.datasets.nombre]
    otherwise. *)
Theorem get_entrenamiento_200 (entrenamiento_id : Z) (cuerpo : dict)
    (llamadas : list llamada) :
  get_entrenamiento select entrenamiento_id = (Http 200 cuerpo, llamadas) ->
  exists datos resto resultado,
    select "entrenamientos" "id" (JNum (inject_Z entrenamiento_id))
    = Some (datos :: resto)
    /\ select "resultados_metricas" "entrenamiento_id"
         (JNum (inject_Z entrenamiento_id)) = Some resultado
    /\ map fst cuerpo =
       ["id"; "tipo_modelo"; "estado"; "fecha_inicio"; "fecha_fin";
        "dataset_nombre"; "metricas"]
    /\ (forall k, In k ["id"; "tipo_modelo"; "estado"; "fecha_inicio"; "fecha_fin"] ->
                  dict_get k cuerpo = dict_get k datos)
    /\ dict_get "metricas" cuerpo =
       Some (match resultado with r :: _ => JObj r | [] => JObj [] end)
    /\ (dict_in "limpiezas_datos" datos = false ->
        dict_get "dataset_nombre" cuerpo = Some (JStr "N/A"))
    /\ (dict_in "limpiezas_datos" datos = true ->
        exists l ds,
          dict_get "limpiezas_datos" datos = Some (JObj l)
          /\ dict_get "datasets" l = Some (JObj ds)
          /\ dict_get "dataset_nombre" cuerpo = dict_get "nombre" ds
          /\ dict_get "nombre" ds <> None).
Proof.
  unfold get_entrenamiento.
  destruct (select "entrenamientos" "id" _) as [[|datos resto]|]; try discriminate.
  destruct (select "resultados_metricas" "entrenamiento_id" _) as [resultado|];
    try discriminate.
  destruct (detalles datos resultado) as [c|] eqn:Hd; try discriminate.
  intros H. injection H as <- _.
  exists datos, resto, resultado. split; [reflexivity|]. split; [reflexivity|].
  unfold detalles in Hd.
  destruct (dict_get "id" datos) as [v1|] eqn:E1; [|discriminate].
  destruct (dict_get "tipo_modelo" datos) as [v2|] eqn:E2; [|discriminate].
  destruct (dict_get "estado" datos) as [v3|] eqn:E3; [|discriminate].
  destruct (dict_get "fecha_inicio" datos) as [v4|] eqn:E4; [|discriminate].
  destruct (dict_get "fecha_fin" datos) as [v5|] eqn:E5; [|discriminate].
  destruct (dataset_nombre datos) as [n|] eqn:En; [|discriminate].
  simpl in Hd. injection Hd as <-.
  split; [reflexivity|]. split.
  { intros k [<-|[<-|[<-|[<-|[<-|[]]]]]]; simpl; congruence. }
  split; [reflexivity|].
  unfold dataset_nombre in En. split.
  - intros Hno. rewrite Hno in En. injection En as <-. reflexivity.
  - intros Hsi. rewrite Hsi in En.
    destruct (dict_get "limpiezas_datos" datos) as [[| | | | |l]|] eqn:El;
      try discriminate.
    simpl in En.
    destruct (dict_get "datasets" l) as [[| | | | |ds]|] eqn:Eds; try discriminate.
    simpl in En. exists l, ds. repeat split; simpl; congruence.
Qed.

End PropiedadesEntrenamientos.

(** ** The other endpoints on the example catalog *)

Lemma create_dataset_201_archivo_witness :
  exists d,
    fst (cargar_archivo (parse_fijo marco_personas) "personas.csv"
           [Byte.x78; Byte.x0a]) = Cargado d
    /\ len d = 4.
Proof.
  destruct (create_dataset_201_archivo (parse_fijo marco_personas)
              open_wb_ejemplo upload_ejemplo insert_ejemplo "2025-01-01T00:00:00" "personas.csv"
              [Byte.x78; Byte.x0a]
              [("message", JStr "Dataset subido y registrado correctamente.");
               ("id", JNum 1); ("nombre", JStr "personas.csv")]
              [StorageUpload "datasets/personas.csv" [Byte.x78; Byte.x0a];
               TableInsert "datasets"
                 (fila_dataset_archivo "2025-01-01T00:00:00" "personas.csv"
                    marco_personas)])
    as (d & H1 & _ & _).
  - vm_compute. reflexivity.
  - exists d. split; [exact H1|]. vm_compute in H1. injection H1 as <-. reflexivity.
Defined.

Lemma create_dataset_sin_marco_sin_llamadas_witness :
  create_dataset (parse_fijo marco_personas) open_wb_ejemplo upload_ejemplo
    insert_ejemplo "2025-01-01T00:00:00"
    (ConArchivo "personas.xlsx" [Byte.x78; Byte.x0a])
  = (Http 400 [("message", JStr "Formato no soportado. Solo CSV o JSON.")], [])
  /\ create_dataset (parse_fijo marco_personas) open_wb_ejemplo upload_ejemplo
       insert_ejemplo "2025-01-01T00:00:00"
       (ConArchivo "sub/personas.xlsx" [Byte.x78; Byte.x0a])
     = (Http500, []).
Proof.
  split.
  - destruct (create_dataset_sin_marco_sin_llamadas (parse_fijo marco_personas)
                open_wb_ejemplo upload_ejemplo insert_ejemplo
                "2025-01-01T00:00:00" "personas.xlsx" [Byte.x78; Byte.x0a])
      as [H _].
    + right. intros d H. vm_compute in H. discriminate.
    + exact H.
  - destruct (create_dataset_sin_marco_sin_llamadas (parse_fijo marco_personas)
                open_wb_ejemplo upload_ejemplo insert_ejemplo
                "2025-01-01T00:00:00" "sub/personas.xlsx" [Byte.x78; Byte.x0a])
      as [H _].
    + left. vm_compute. reflexivity.
    + exact H.
Defined.

Lemma create_dataset_archivo_leido_witness :
  snd (create_dataset (parse_fijo marco_personas) open_wb_ejemplo
         (fun _ _ => false) insert_ejemplo
         "2025-01-01T00:00:00" (ConArchivo "personas.csv" [Byte.x78; Byte.x0a]))
  = [StorageUpload "datasets/personas.csv" [Byte.x78; Byte.x0a]].
Proof.
  destruct (create_dataset_archivo_leido (parse_fijo marco_personas)
              open_wb_ejemplo (fun _ _ => false) insert_ejemplo
              "2025-01-01T00:00:00"
              "personas.csv" [Byte.x78; Byte.x0a] marco_personas) as (H & _ & _).
  - vm_compute. reflexivity.
  - vm_compute. reflexivity.
  - exact H.
Defined.

Lemma create_dataset_json_sin_subida_witness :
  snd (create_dataset (parse_fijo marco_personas) open_wb_ejemplo upload_ejemplo
         insert_ejemplo "2025-01-01T00:00:00"
         (ConJson [("nombre", JStr "ventas"); ("ruta_almacenamiento", JStr "x/y.csv")]))
  = [TableInsert "datasets"
       [("nombre", JStr "ventas");
        ("ruta_almacenamiento", JStr "x/y.csv");
        ("num_filas", JNull);
        ("num_columnas", JNull);
        ("metadata_json", JObj []);
        ("fecha_carga", JStr "2025-01-01T00:00:00")]].
Proof.
  destruct (create_dataset_json_sin_subida (parse_fijo marco_personas)
              open_wb_ejemplo upload_ejemplo insert_ejemplo "2025-01-01T00:00:00"
              [("nombre", JStr "ventas"); ("ruta_almacenamiento", JStr "x/y.csv")])
    as (_ & H).
  rewrite H.
  - reflexivity.
  - discriminate.
  - reflexivity.
Defined.

Lemma entrenamiento_siempre_en_curso_witness :
  exists fila,
    snd (create_entrenamiento insert_ejemplo "2025-01-01T00:00:00"
           [("limpieza_id", JNum 3); ("tipo_modelo", JStr "mlp");
            ("estado", JStr "Finalizado")])
    = [TableInsert "entrenamientos" fila]
    /\ dict_get "estado" fila = Some (JStr "En Curso").
Proof.
  destruct (entrenamiento_siempre_en_curso insert_ejemplo "2025-01-01T00:00:00"
              [("limpieza_id", JNum 3); ("tipo_modelo", JStr "mlp");
               ("estado", JStr "Finalizado")]) as (_ & H).
  destruct H as (fila & H1 & _ & H3 & _).
  - reflexivity.
  - reflexivity.
  - exists fila. split; [exact H1 | exact H3].
Defined.

Lemma resultado_antes_de_finalizar_witness :
  create_resultado insert_ejemplo (fun _ _ _ _ => false) "2025-01-01T00:00:00"
    cuerpo_resultado
  = (Http500,
     [TableInsert "resultados_metricas" (fila_resultado cuerpo_resultado);
      TableUpdate "entrenamientos"
        [("estado", JStr "Finalizado"); ("fecha_fin", JStr "2025-01-01T00:00:00")]
        "id" (JNum 5)]).
Proof.
  destruct (resultado_antes_de_finalizar insert_ejemplo (fun _ _ _ _ => false)
              "2025-01-01T00:00:00" cuerpo_resultado) as (_ & _ & _ & H).
  rewrite H.
  - reflexivity.
  - reflexivity.
  - discriminate.
  - reflexivity.
Defined.

Lemma get_entrenamiento_solo_lee_witness :
  snd (get_entrenamiento (fun _ _ _ => Some []) 5%Z)
  = [TableSelect "entrenamientos" "id" (JNum (inject_Z 5))].
Proof.
  destruct (get_entrenamiento_solo_lee (fun _ _ _ => Some []) 5%Z) as (_ & _ & H).
  apply H. reflexivity.
Defined.

Lemma get_entrenamiento_relacion_nula_witness :
  fst (get_entrenamiento select_ejemplo 5%Z) = Http500.
Proof.
  apply (get_entrenamiento_relacion_nula select_ejemplo 5%Z
           entrenamiento_sin_limpieza [] JNull).
  - reflexivity.
  - reflexivity.
  - discriminate.
Defined.

Lemma get_entrenamiento_200_witness :
  exists datos resto resultado,
    select_sin_relacion "entrenamientos" "id" (JNum (inject_Z 5))
    = Some (datos :: resto)
    /\ select_sin_relacion "resultados_metricas" "entrenamiento_id"
         (JNum (inject_Z 5)) = Some resultado
    /\ dict_get "dataset_nombre"
         [("id", JNum 5); ("tipo_modelo", JStr "mlp");
          ("estado", JStr "En Curso");
          ("fecha_inicio", JStr "2025-01-01T00:00:00");
          ("fecha_fin", JNull); ("dataset_nombre", JStr "N/A");
          ("metricas", JObj [])] = Some (JStr "N/A").
Proof.
  destruct (get_entrenamiento_200 select_sin_relacion 5%Z
              [("id", JNum 5); ("tipo_modelo", JStr "mlp");
               ("estado", JStr "En Curso");
               ("fecha_inicio", JStr "2025-01-01T00:00:00");
               ("fecha_fin", JNull); ("dataset_nombre", JStr "N/A");
               ("metricas", JObj [])]
              [TableSelect "entrenamientos" "id" (JNum (inject_Z 5));
               TableSelect "resultados_metricas" "entrenamiento_id"
                 (JNum (inject_Z 5))])
    as (datos & resto & resultado & H1 & H2 & _).
  - vm_compute. reflexivity.
  - exists datos, resto, resultado. split; [exact H1|]. split; [exact H2|].
    reflexivity.
Defined.
